(** * Mini-Minecraft: block faces and the block registry

    A shallow embedding of [scene/block.cpp]: the six faces of a unit voxel
    built by [Block::createBlockFaces], the static registry
    [Block::BlockCollection] with the three block-type sets, the predicates
    that read them, the colours of [Block::getColors] and the loader
    [Block::loadUVCoordFromText] of the UV offsets.

    Numbers are single-precision floats, as in the source ([float] and glm's
    [vec2]/[vec4]); they are modelled with the IEEE 754 specification of the
    standard library ([spec_float]) at precision 24 and maximal exponent 128. *)

From Stdlib Require Import ZArith QArith Lia.
From Stdlib Require Import Floats.SpecFloat Ascii.
From stdpp Require Import gmap strings.

Local Open Scope Z_scope.

(** ** Single-precision floats *)

Module F32.

Definition prec : Z := 24.
Definition emax : Z := 128.

Definition float : Type := spec_float.

(** Conversion of an integer literal (or of a literal such as [1.f] whose
    value is an integer) to [float]. *)
Definition of_Z (z : Z) : float := binary_normalize prec emax z 0 false.

Definition add : float -> float -> float := SFadd prec emax.
Definition sub : float -> float -> float := SFsub prec emax.
Definition mul : float -> float -> float := SFmul prec emax.
Definition div : float -> float -> float := SFdiv prec emax.
Definition opp : float -> float := SFopp.

(** The comparison [==] of the language: false on NaN, true on zeros of
    different sign. *)
Definition eqb : float -> float -> bool := SFeqb.

(** The rational number a float stands for; none for NaN and the
    infinities.  The fraction is reduced. *)
Definition to_Q (x : float) : option Q :=
  match x with
  | S754_zero _ => Some (0 # 1)%Q
  | S754_finite s m e =>
      let n := if s then Z.neg m else Z.pos m in
      Some (Qred
              match e with
              | Z0 => (n # 1)%Q
              | Z.pos p => (n * 2 ^ Z.pos p # 1)%Q
              | Z.neg p => (n # 2 ^ p)%Q
              end)
  | _ => None
  end.

(** The integer a float stands for, when it stands for one. *)
Definition to_Z (x : float) : option Z :=
  match to_Q x with
  | Some q => if Pos.eqb (Qden q) 1 then Some (Qnum q) else None
  | None => None
  end.

(** Two floats denote the same number: they are the same float, or they
    compare equal (which identifies the two zeros). *)
Definition same (x y : float) : Prop := x = y \/ eqb x y = true.

(** A literal whose value is [m * 2 ^ e], such as [0.5f] and [0.75f]. *)
Definition of_dyadic (m e : Z) : float := binary_normalize prec emax m e false.

(** The comparison [<] of the language. *)
Definition ltb : float -> float -> bool := SFltb.

End F32.

(** ** The glm vectors the source uses *)

Module Glm.

Record vec2 : Type := Vec2 { v2x : F32.float; v2y : F32.float }.

Record vec4 : Type :=
  Vec4 { v4x : F32.float; v4y : F32.float; v4z : F32.float; v4w : F32.float }.

(** [glm::vec2(s)]: both components are [s]. *)
Definition vec2_splat (s : F32.float) : vec2 := Vec2 s s.

(** [a + b] on [glm::vec2]: component-wise float addition. *)
Definition vec2_add (a b : vec2) : vec2 :=
  Vec2 (F32.add (v2x a) (v2x b)) (F32.add (v2y a) (v2y b)).

(** [glm::vec4(a, b, c, d)] on integer literals: each is converted to
    [float]. *)
Definition vec4_of_ints (a b c d : Z) : vec4 :=
  Vec4 (F32.of_Z a) (F32.of_Z b) (F32.of_Z c) (F32.of_Z d).

Definition vec2_same (a b : vec2) : Prop :=
  F32.same (v2x a) (v2x b) /\ F32.same (v2y a) (v2y b).

(** [v / s] on a [glm::vec4] and a scalar: component-wise float division. *)
Definition vec4_div (v : vec4) (s : F32.float) : vec4 :=
  Vec4 (F32.div (v4x v) s) (F32.div (v4y v) s) (F32.div (v4z v) s)
    (F32.div (v4w v) s).

End Glm.

Import Glm.

(** ** Data model of [block.h] *)

(** Modelled from the spec: the enumeration [Direction] is declared in
    [block.h], which is not among the sources; its six tags are the ones
    [block.cpp] uses, in the order its comment gives. *)
Inductive Direction : Type := XPOS | XNEG | YPOS | YNEG | ZPOS | ZNEG.

(** Modelled from the spec: the enumeration [BlockType] is declared in
    [block.h], which is not among the sources; its tags are those listed in
    the data model of the specification, all of which [block.cpp] names. *)
Inductive BlockType : Type :=
  | GRASS | DIRT | STONE | WATER | SNOW | LAVA | BEDROCK | ICE | WOOD | LEAF
  | EMPTY.

(** Modelled from the spec: [VertexData] is declared in [block.h]; it is built
    from a position and a UV coordinate. *)
Record VertexData : Type := mkVertexData { pos : vec4; uv : vec2 }.

(** Modelled from the spec: [BlockFace] is declared in [block.h]; it is built
    from a direction tag, a normal vector and four vertices. *)
Record BlockFace : Type :=
  mkBlockFace {
      direction : Direction;
      normal : vec4;
      v1 : VertexData;
      v2 : VertexData;
      v3 : VertexData;
      v4 : VertexData
    }.

(** [std::array<A, 6>]: six elements, indexed 0 to 5. *)
Record array6 (A : Type) : Type :=
  Array6 { a0 : A; a1 : A; a2 : A; a3 : A; a4 : A; a5 : A }.

Arguments Array6 {A} _ _ _ _ _ _.
Arguments a0 {A} _.
Arguments a1 {A} _.
Arguments a2 {A} _.
Arguments a3 {A} _.
Arguments a4 {A} _.
Arguments a5 {A} _.

Definition array6_to_list {A : Type} (arr : array6 A) : list A :=
  [a0 arr; a1 arr; a2 arr; a3 arr; a4 arr; a5 arr].

(** [arr[i]], defined for the indices 0 to 5. *)
Definition array6_at {A : Type} (arr : array6 A) (i : nat) : option A :=
  array6_to_list arr !! i.

(** [arr[i] = x], defined for the indices 0 to 5; a write at any other index
    is outside the array. *)
Definition array6_set {A : Type} (arr : array6 A) (i : nat) (x : A) :
    option (array6 A) :=
  match i with
  | 0 => Some (Array6 x (a1 arr) (a2 arr) (a3 arr) (a4 arr) (a5 arr))
  | 1 => Some (Array6 (a0 arr) x (a2 arr) (a3 arr) (a4 arr) (a5 arr))
  | 2 => Some (Array6 (a0 arr) (a1 arr) x (a3 arr) (a4 arr) (a5 arr))
  | 3 => Some (Array6 (a0 arr) (a1 arr) (a2 arr) x (a4 arr) (a5 arr))
  | 4 => Some (Array6 (a0 arr) (a1 arr) (a2 arr) (a3 arr) x (a5 arr))
  | 5 => Some (Array6 (a0 arr) (a1 arr) (a2 arr) (a3 arr) (a4 arr) x)
  | _ => None
  end%nat.

(** The position of a direction in the order XPOS, XNEG, YPOS, YNEG, ZPOS,
    ZNEG. *)
Definition direction_index (d : Direction) : nat :=
  match d with
  | XPOS => 0 | XNEG => 1 | YPOS => 2 | YNEG => 3 | ZPOS => 4 | ZNEG => 5
  end%nat.

#[global] Instance Direction_eq_dec : EqDecision Direction.
Proof. solve_decision. Defined.

#[global] Instance BlockType_eq_dec : EqDecision BlockType.
Proof. solve_decision. Defined.

Definition BlockType_to_nat (t : BlockType) : nat :=
  match t with
  | GRASS => 0 | DIRT => 1 | STONE => 2 | WATER => 3 | SNOW => 4 | LAVA => 5
  | BEDROCK => 6 | ICE => 7 | WOOD => 8 | LEAF => 9 | EMPTY => 10
  end%nat.

Definition BlockType_of_nat (n : nat) : BlockType :=
  match n with
  | 0 => GRASS | 1 => DIRT | 2 => STONE | 3 => WATER | 4 => SNOW | 5 => LAVA
  | 6 => BEDROCK | 7 => ICE | 8 => WOOD | 9 => LEAF | _ => EMPTY
  end%nat.

#[global] Instance BlockType_countable : Countable BlockType.
Proof.
  apply (inj_countable' BlockType_to_nat BlockType_of_nat).
  intros t; destruct t; reflexivity.
Defined.

(** ** [block.cpp] *)

Module Block.

(** [Block::createBlockFaces(uvOffsets)]. *)
Definition createBlockFaces (uvOffsets : array6 vec2) : array6 BlockFace :=
  let length := F32.div (F32.of_Z 1) (F32.of_Z 16) in
  Array6
    (mkBlockFace XPOS (vec4_of_ints 1 0 0 0)
       (mkVertexData (vec4_of_ints 1 0 1 1) (a0 uvOffsets))
       (mkVertexData (vec4_of_ints 1 0 0 1)
          (vec2_add (a0 uvOffsets) (Vec2 length (F32.of_Z 0))))
       (mkVertexData (vec4_of_ints 1 1 0 1)
          (vec2_add (a0 uvOffsets) (Vec2 length length)))
       (mkVertexData (vec4_of_ints 1 1 1 1)
          (vec2_add (a0 uvOffsets) (Vec2 (F32.of_Z 0) length))))
    (mkBlockFace XNEG (vec4_of_ints (-1) 0 0 0)
       (mkVertexData (vec4_of_ints 0 0 0 1) (a1 uvOffsets))
       (mkVertexData (vec4_of_ints 0 0 1 1)
          (vec2_add (a1 uvOffsets) (Vec2 length (F32.of_Z 0))))
       (mkVertexData (vec4_of_ints 0 1 1 1)
          (vec2_add (a1 uvOffsets) (Vec2 length length)))
       (mkVertexData (vec4_of_ints 0 1 0 1)
          (vec2_add (a1 uvOffsets) (Vec2 (F32.of_Z 0) length))))
    (mkBlockFace YPOS (vec4_of_ints 0 1 0 0)
       (mkVertexData (vec4_of_ints 0 1 1 1) (a2 uvOffsets))
       (mkVertexData (vec4_of_ints 1 1 1 1)
          (vec2_add (a2 uvOffsets) (Vec2 length (F32.of_Z 0))))
       (mkVertexData (vec4_of_ints 1 1 0 1)
          (vec2_add (a2 uvOffsets) (Vec2 length length)))
       (mkVertexData (vec4_of_ints 0 1 0 1)
          (vec2_add (a2 uvOffsets) (Vec2 (F32.of_Z 0) length))))
    (mkBlockFace YNEG (vec4_of_ints 0 (-1) 0 0)
       (mkVertexData (vec4_of_ints 0 0 0 1) (a3 uvOffsets))
       (mkVertexData (vec4_of_ints 1 0 0 1)
          (vec2_add (a3 uvOffsets) (Vec2 length (F32.of_Z 0))))
       (mkVertexData (vec4_of_ints 1 0 1 1)
          (vec2_add (a3 uvOffsets) (Vec2 length length)))
       (mkVertexData (vec4_of_ints 0 0 1 1)
          (vec2_add (a3 uvOffsets) (Vec2 (F32.of_Z 0) length))))
    (mkBlockFace ZPOS (vec4_of_ints 0 0 1 0)
       (mkVertexData (vec4_of_ints 0 0 1 1) (a4 uvOffsets))
       (mkVertexData (vec4_of_ints 1 0 1 1)
          (vec2_add (a4 uvOffsets) (Vec2 length (F32.of_Z 0))))
       (mkVertexData (vec4_of_ints 1 1 1 1)
          (vec2_add (a4 uvOffsets) (Vec2 length length)))
       (mkVertexData (vec4_of_ints 0 1 1 1)
          (vec2_add (a4 uvOffsets) (Vec2 (F32.of_Z 0) length))))
    (mkBlockFace ZNEG (vec4_of_ints 0 0 (-1) 0)
       (mkVertexData (vec4_of_ints 1 0 0 1) (a5 uvOffsets))
       (mkVertexData (vec4_of_ints 0 0 0 1)
          (vec2_add (a5 uvOffsets) (Vec2 length (F32.of_Z 0))))
       (mkVertexData (vec4_of_ints 0 1 0 1)
          (vec2_add (a5 uvOffsets) (Vec2 length length)))
       (mkVertexData (vec4_of_ints 1 1 0 1)
          (vec2_add (a5 uvOffsets) (Vec2 (F32.of_Z 0) length)))).

(** [Block::createBlockFaces()]: the faces with all UV offsets zero. *)
Definition createBlockFaces_default : array6 BlockFace :=
  let z := vec2_splat (F32.of_Z 0) in
  createBlockFaces (Array6 z z z z z z).

(** The static members of [Block] that the functions below read or write:
    the registry of faces and the three sets of block types. *)
Record Registry : Type :=
  mkRegistry {
      BlockCollection : gmap BlockType (array6 BlockFace);
      transparentBlockTypes : gset BlockType;
      animatableBlockTypes : gset BlockType;
      liquidBlockTypes : gset BlockType
    }.

(** The static initialisers of the three sets.  The initial content of
    [BlockCollection] depends on declarations of [block.h] and is left
    open. *)
Definition initial (faces : gmap BlockType (array6 BlockFace)) : Registry :=
  {| BlockCollection := faces;
     transparentBlockTypes := {[ EMPTY; WATER; ICE ]};
     animatableBlockTypes := {[ WATER; LAVA ]};
     liquidBlockTypes := {[ WATER; LAVA ]} |}.

(** [find(type) == end()]: the type is not in the set. *)
Definition isOpaque (r : Registry) (type : BlockType) : bool :=
  bool_decide (type ∉ transparentBlockTypes r).

(** [find(type) != end()]: the type is in the set. *)
Definition isTransparent (r : Registry) (type : BlockType) : bool :=
  bool_decide (type ∈ transparentBlockTypes r).

Definition isLiquid (r : Registry) (type : BlockType) : bool :=
  bool_decide (type ∈ liquidBlockTypes r).

Definition isAnimatable (r : Registry) (type : BlockType) : bool :=
  bool_decide (type ∈ animatableBlockTypes r).

Definition getAnimatableFlag (r : Registry) (type : BlockType) : vec2 :=
  if isAnimatable r type then vec2_splat (F32.of_Z 1)
  else vec2_splat (F32.opp (F32.of_Z 1)).

Definition isEmpty (type : BlockType) : bool := bool_decide (type = EMPTY).

(** [BlockCollection[blockType] = createBlockFaces(uv)]: the entry is
    created when absent and overwritten when present. *)
Definition insertNewUVCoord (blockType : BlockType) (uv : array6 vec2)
    (r : Registry) : Registry :=
  {| BlockCollection := <[blockType := createBlockFaces uv]> (BlockCollection r);
     transparentBlockTypes := transparentBlockTypes r;
     animatableBlockTypes := animatableBlockTypes r;
     liquidBlockTypes := liquidBlockTypes r |}.

(** The registries the program can be in: the static initialisers, then
    any number of calls of [insertNewUVCoord], the only function of
    [block.cpp] that writes to a static member ([loadUVCoordFromText]
    writes through it). *)
Inductive reachable : Registry -> Prop :=
| reachable_initial faces : reachable (initial faces)
| reachable_insert blockType uv r :
    reachable r -> reachable (insertNewUVCoord blockType uv r).

(** [Block::getColors]: the colour of the five block types the switch
    handles, and the debug purple for every other one. *)
Definition getColors (type : BlockType) : vec4 :=
  match type with
  | GRASS => vec4_div (vec4_of_ints 95 159 53 255) (F32.of_Z 255)
  | DIRT => vec4_div (vec4_of_ints 121 85 58 255) (F32.of_Z 255)
  | STONE =>
      Vec4 (F32.of_dyadic 1 (-1)) (F32.of_dyadic 1 (-1)) (F32.of_dyadic 1 (-1))
        (F32.of_Z 1)
  | WATER => Vec4 (F32.of_Z 0) (F32.of_Z 0) (F32.of_dyadic 3 (-2)) (F32.of_Z 1)
  | SNOW => Vec4 (F32.of_Z 1) (F32.of_Z 1) (F32.of_Z 1) (F32.of_Z 1)
  | _ => Vec4 (F32.of_Z 1) (F32.of_Z 0) (F32.of_Z 1) (F32.of_Z 1)
  end.

(** [Block::blockTypeMap]: the names of the block types in the text file.
    No function of [block.cpp] adds or removes a key: the only access with
    [operator[]] follows a successful [find] of the same key. *)
Definition blockTypeMap : gmap string BlockType :=
  list_to_map
    [("GRASS"%string, GRASS); ("DIRT"%string, DIRT); ("STONE"%string, STONE);
     ("WATER"%string, WATER); ("SNOW"%string, SNOW); ("LAVA"%string, LAVA);
     ("BEDROCK"%string, BEDROCK); ("ICE"%string, ICE); ("WOOD"%string, WOOD);
     ("LEAF"%string, LEAF)].

(** [line.split(sep)]: the parts between the occurrences of the separator,
    empty parts included; there is always at least one part. *)
Fixpoint split (sep : Ascii.ascii) (line : string) : list string :=
  match line with
  | EmptyString => [EmptyString]
  | String c rest =>
      if bool_decide (c = sep) then EmptyString :: split sep rest
      else match split sep rest with
           | part :: parts => String c part :: parts
           | [] => [String c EmptyString]
           end
  end.

(** [line.size() == 0 || line.startsWith("#")]. *)
Definition skipLine (line : string) : bool :=
  (String.length line =? 0)%nat ||
  match line with
  | String c _ => bool_decide (c = "#"%char)
  | EmptyString => false
  end.

Section LoadUVCoordFromText.

(** [QString::toDouble] followed by the conversion to [float] that the
    constructor of [glm::vec2] applies; both belong to libraries. *)
Variable toDouble : string -> F32.float.

(** [glm::vec2(line.split(" ")[0].toDouble(), line.split(" ")[1].toDouble())];
    there is no result when the line has no second part: the source then
    reads past the end of the list of parts. *)
Definition parseCoord (line : string) : option vec2 :=
  x ← split " "%char line !! 0%nat;
  y ← split " "%char line !! 1%nat;
  Some (Vec2 (toDouble x) (toDouble y)).

(** The local variables of [loadUVCoordFromText] that live across the
    iterations of its loop, and the registry. *)
Record LoadState : Type :=
  mkLoadState {
      readCoord : bool;
      coordCount : nat;
      uvOffsets : array6 vec2;
      currBlockType : BlockType;
      registry : Registry
    }.

(** One iteration of the loop, on the line read. *)
Definition processLine (line : string) (st : LoadState) : option LoadState :=
  if skipLine line then Some st
  else
    st1 ←
      (if readCoord st then
         c ← parseCoord line;
         arr ← array6_set (uvOffsets st) (coordCount st) c;
         Some (mkLoadState true (S (coordCount st)) arr (currBlockType st)
                 (registry st))
       else
         match blockTypeMap !! line with
         | Some t =>
             Some (mkLoadState true (coordCount st) (uvOffsets st) t
                     (registry st))
         | None => Some st
         end);
    if (coordCount st1 =? 6)%nat then
      Some (mkLoadState false 0 (uvOffsets st1) (currBlockType st1)
              (insertNewUVCoord (currBlockType st1) (uvOffsets st1)
                 (registry st1)))
    else Some st1.

(** The loop, on the lines the stream yields until its end. *)
Fixpoint processLines (lines : list string) (st : LoadState) :
    option LoadState :=
  match lines with
  | [] => Some st
  | line :: rest => st' ← processLine line st; processLines rest st'
  end.

(** [Block::loadUVCoordFromText], on the lines that the text stream yields.
    The locals [uvOffsets] and [currBlockType] are not initialised by the
    source: their first content is whatever [uv0] and [t0] are.  There is no
    result when a coordinate line has no second part. *)
Definition loadUVCoordFromText (uv0 : array6 vec2) (t0 : BlockType)
    (lines : list string) (r : Registry) : option Registry :=
  registry <$> processLines lines (mkLoadState false 0 uv0 t0 r).

End LoadUVCoordFromText.

End Block.

Arguments Block.blockTypeMap : simpl never.

(** ** Vocabulary of the statements: integer points and directions *)

Module Geometry.

Definition ivec3 : Type := (Z * Z * Z)%type.

(** The point with integer coordinates that the [xyz] part of a [vec4]
    stands for, when its three components are integers. *)
Definition xyz (p : vec4) : option ivec3 :=
  match F32.to_Z (v4x p), F32.to_Z (v4y p), F32.to_Z (v4z p) with
  | Some x, Some y, Some z => Some (x, y, z)
  | _, _, _ => None
  end.

Definition sub3 (a b : ivec3) : ivec3 :=
  let '(ax, ay, az) := a in
  let '(bx, b_y, bz) := b in
  (ax - bx, ay - b_y, az - bz).

Definition cross (a b : ivec3) : ivec3 :=
  let '(ax, ay, az) := a in
  let '(bx, b_y, bz) := b in
  (ay * bz - az * b_y, az * bx - ax * bz, ax * b_y - ay * bx).

(** The unit vector pointing out of the cube through the face of a
    direction. *)
Definition outward (d : Direction) : ivec3 :=
  match d with
  | XPOS => (1, 0, 0) | XNEG => (-1, 0, 0)
  | YPOS => (0, 1, 0) | YNEG => (0, -1, 0)
  | ZPOS => (0, 0, 1) | ZNEG => (0, 0, -1)
  end.

(** The coordinate of a point along the axis of a direction. *)
Definition along (d : Direction) (p : ivec3) : Z :=
  let '(x, y, z) := p in
  match d with
  | XPOS | XNEG => x
  | YPOS | YNEG => y
  | ZPOS | ZNEG => z
  end.

(** The value of that coordinate on the face of a direction of the unit
    cube. *)
Definition side (d : Direction) : Z :=
  match d with
  | XPOS | YPOS | ZPOS => 1
  | XNEG | YNEG | ZNEG => 0
  end.

Definition corner_of_unit_cube (p : ivec3) : Prop :=
  let '(x, y, z) := p in
  (x = 0 \/ x = 1) /\ (y = 0 \/ y = 1) /\ (z = 0 \/ z = 1).

(** The four vertices of a face are corners of the unit cube, lie in the
    plane of the face's direction, and turn counter-clockwise seen from
    outside: at every vertex the cross product of the incoming and the
    outgoing edge is the outward unit vector. *)
Definition outward_quad (f : BlockFace) : Prop :=
  exists p1 p2 p3 p4 : ivec3,
    xyz (pos (v1 f)) = Some p1 /\ xyz (pos (v2 f)) = Some p2 /\
    xyz (pos (v3 f)) = Some p3 /\ xyz (pos (v4 f)) = Some p4 /\
    Forall (fun p => corner_of_unit_cube p /\
                     along (direction f) p = side (direction f))
      [p1; p2; p3; p4] /\
    cross (sub3 p2 p1) (sub3 p3 p2) = outward (direction f) /\
    cross (sub3 p3 p2) (sub3 p4 p3) = outward (direction f) /\
    cross (sub3 p4 p3) (sub3 p1 p4) = outward (direction f) /\
    cross (sub3 p1 p4) (sub3 p2 p1) = outward (direction f).

(** The normal the specification gives for a direction. *)
Definition axis_normal (d : Direction) : vec4 :=
  match d with
  | XPOS => vec4_of_ints 1 0 0 0 | XNEG => vec4_of_ints (-1) 0 0 0
  | YPOS => vec4_of_ints 0 1 0 0 | YNEG => vec4_of_ints 0 (-1) 0 0
  | ZPOS => vec4_of_ints 0 0 1 0 | ZNEG => vec4_of_ints 0 0 (-1) 0
  end.

(** The side of a texture of the atlas: the float [1/16]. *)
Definition sixteenth : F32.float := F32.div (F32.of_Z 1) (F32.of_Z 16).

Definition zero : F32.float := F32.of_Z 0.

End Geometry.

Import Geometry.

(** ** Vocabulary of the statements: the loop of the loader *)

Module Loading.

(** What holds of the loop variables at the head of every iteration: the
    counter is below 6, and it is 0 while no block is being read. *)
Definition counting (st : Block.LoadState) : Prop :=
  (Block.coordCount st < 6)%nat /\
  (Block.readCoord st = false -> Block.coordCount st = 0%nat).

(** Two states of the loop that agree on everything the loop will still
    read: the flag, the counter and the registry, and, while a block is being
    read, its type and the coordinates stored so far. *)
Definition agree (st st' : Block.LoadState) : Prop :=
  Block.readCoord st = Block.readCoord st' /\
  Block.coordCount st = Block.coordCount st' /\
  Block.registry st = Block.registry st' /\
  (Block.readCoord st = true ->
   Block.currBlockType st = Block.currBlockType st' /\
   forall i, (i < Block.coordCount st)%nat ->
             array6_at (Block.uvOffsets st) i
             = array6_at (Block.uvOffsets st') i).

(** A sequence of calls of [insertNewUVCoord], first call first. *)
Definition insertAll (calls : list (BlockType * array6 vec2))
    (r : Block.Registry) : Block.Registry :=
  foldl (fun acc c => Block.insertNewUVCoord (fst c) (snd c) acc) r calls.

(** The number of lines of the loop still needed in a state before the next
    call of [insertNewUVCoord] can have been paid for: a block costs its name
    line and six coordinate lines. *)
Definition paid (st : Block.LoadState) : nat :=
  if Block.readCoord st then S (Block.coordCount st) else 0%nat.

(** The block types whose colour the switch of [getColors] sets. *)
Definition handled (t : BlockType) : bool :=
  match t with
  | GRASS | DIRT | STONE | WATER | SNOW => true
  | _ => false
  end.

(** The float [k/16]: the offset of the [k]-th row or column of the 16 x 16
    texture atlas. *)
Definition cell (k : Z) : F32.float := F32.div (F32.of_Z k) (F32.of_Z 16).

(** The coordinates stored by the last call for a block type in a sequence
    of calls of [insertNewUVCoord], if there is one. *)
Fixpoint lastCall (t : BlockType) (calls : list (BlockType * array6 vec2)) :
    option (array6 vec2) :=
  match calls with
  | [] => None
  | c :: rest =>
      match lastCall t rest with
      | Some uv0 => Some uv0
      | None => if decide (fst c = t) then Some (snd c) else None
      end
  end.

(** The integer points of the four vertices of a face, in their order. *)
Definition face_points (f : BlockFace) : list (option ivec3) :=
  [xyz (pos (v1 f)); xyz (pos (v2 f)); xyz (pos (v3 f)); xyz (pos (v4 f))].

(** The eight corners of the unit cube. *)
Definition cube_corners : list ivec3 :=
  [(0, 0, 0); (0, 0, 1); (0, 1, 0); (0, 1, 1);
   (1, 0, 0); (1, 0, 1); (1, 1, 0); (1, 1, 1)].

(** The square of the distance between two points, when both are given. *)
Definition dist2 (p q : option ivec3) : option Z :=
  match p, q with
  | Some (px, py, pz), Some (qx, qy, qz) =>
      Some ((px - qx) * (px - qx) + (py - qy) * (py - qy)
            + (pz - qz) * (pz - qz))
  | _, _ => None
  end.

(** The faces of the four sides of the cube: all but the top and the
    bottom. *)
Definition is_side (d : Direction) : bool :=
  match d with
  | YPOS | YNEG => false
  | _ => true
  end.

(** Six UV offsets that are all [(0, 0)]. *)
Definition no_offsets : array6 vec2 :=
  Array6 (Vec2 zero zero) (Vec2 zero zero) (Vec2 zero zero)
    (Vec2 zero zero) (Vec2 zero zero) (Vec2 zero zero).

(** A UV coordinate stands for the pair of numbers [(x, y)]. *)
Definition uv_is (p : vec2) (x y : Q) : Prop :=
  exists a b : Q,
    F32.to_Q (v2x p) = Some a /\ F32.to_Q (v2y p) = Some b /\
    (a == x)%Q /\ (b == y)%Q.

(** The four UV coordinates of a face are, as numbers and in the order of
    the vertices, the corners of the square of side [1/16] at the offset:
    the offset itself, the offset plus [(1/16, 0)], plus [(1/16, 1/16)] and
    plus [(0, 1/16)]. *)
Definition exact_sub_image (o : vec2) (f : BlockFace) : Prop :=
  exists ox oy : Q,
    F32.to_Q (v2x o) = Some ox /\ F32.to_Q (v2y o) = Some oy /\
    uv_is (uv (v1 f)) ox oy /\
    uv_is (uv (v2 f)) (ox + (1 # 16)) oy /\
    uv_is (uv (v3 f)) (ox + (1 # 16)) (oy + (1 # 16)) /\
    uv_is (uv (v4 f)) ox (oy + (1 # 16)).

End Loading.

Import Loading.

(** * Properties *)

(** ** Floats *)

Lemma sixteenth_exact : F32.to_Q sixteenth = Some (1 # 16)%Q.
Proof. reflexivity. Qed.

Lemma F32_of_Z_exact_small :
  F32.to_Z (F32.of_Z 0) = Some 0 /\ F32.to_Z (F32.of_Z 1) = Some 1 /\
  F32.to_Z (F32.of_Z (-1)) = Some (-1) /\
  F32.opp (F32.of_Z 1) = F32.of_Z (-1).
Proof. repeat split. Qed.

(** Adding the float zero does not change the number a float stands for: the
    float itself is unchanged, except that the negative zero becomes the
    positive zero. *)
Lemma F32_add_zero_r (x : F32.float) : F32.same x (F32.add x zero).
Proof.
  destruct x as [[|] | s | | s m e]; try (left; reflexivity).
  right. reflexivity.
Qed.

Lemma vec2_add_zero_r (a : vec2) : vec2_same a (vec2_add a (Vec2 zero zero)).
Proof. split; apply F32_add_zero_r. Qed.

Lemma cell_steps (k : Z) :
  0 <= k < 16 ->
  F32.add (cell k) sixteenth = cell (k + 1) /\
  F32.add (cell k) zero = cell k /\
  F32.to_Q (cell k) = Some (Qred (k # 16)) /\
  F32.to_Q (cell (k + 1)) = Some (Qred (k + 1 # 16)).
Proof.
  intros Hk.
  assert (k = 0 \/ k = 1 \/ k = 2 \/ k = 3 \/ k = 4 \/ k = 5 \/ k = 6 \/ k = 7 \/
          k = 8 \/ k = 9 \/ k = 10 \/ k = 11 \/ k = 12 \/ k = 13 \/ k = 14 \/
          k = 15) as Hcases by lia.
  repeat (destruct Hcases as [-> | Hcases]; [vm_compute; auto |]).
  subst k. vm_compute. auto.
Qed.

Lemma cell_succ_value (k : Z) :
  (Qred (k + 1 # 16) == Qred (k # 16) + (1 # 16))%Q.
Proof.
  rewrite !Qred_correct. unfold Qeq, Qplus. cbn. lia.
Qed.

(** ** The code on concrete inputs *)

Example initial_predicates :
  Block.isTransparent (Block.initial ∅) WATER = true /\
  Block.isOpaque (Block.initial ∅) STONE = true /\
  Block.isLiquid (Block.initial ∅) ICE = false /\
  Block.isAnimatable (Block.initial ∅) LAVA = true /\
  Block.isEmpty EMPTY = true.
Proof. vm_compute. repeat split. Qed.

Example lava_flag :
  Block.getAnimatableFlag (Block.initial ∅) LAVA
  = Vec2 (S754_finite false 8388608 (-23)) (S754_finite false 8388608 (-23)).
Proof. vm_compute. reflexivity. Qed.

(** The third vertex of the YPOS face for the offset [(1/16, 1)] has the UV
    coordinate [(1/8, 17/16)]. *)
Example ypos_third_uv :
  uv (v3 (a2 (Block.createBlockFaces
                (Array6 (Vec2 zero zero) (Vec2 zero zero)
                   (Vec2 sixteenth (F32.of_Z 1))
                   (Vec2 zero zero) (Vec2 zero zero) (Vec2 zero zero)))))
  = Vec2 (F32.div (F32.of_Z 1) (F32.of_Z 8))
         (F32.div (F32.of_Z 17) (F32.of_Z 16)).
Proof. vm_compute. reflexivity. Qed.

Example default_faces_first_vertex :
  v1 (a5 Block.createBlockFaces_default)
  = mkVertexData (vec4_of_ints 1 0 0 1) (Vec2 zero zero).
Proof. reflexivity. Qed.

(** ** The faces *)

Lemma createBlockFaces_directions (uvOffsets : array6 vec2) :
  map direction (array6_to_list (Block.createBlockFaces uvOffsets)) =
  [XPOS; XNEG; YPOS; YNEG; ZPOS; ZNEG].
Proof. reflexivity. Qed.

(** C1: whatever the six UV offsets, [createBlockFaces] returns six faces;
    the four vertex positions of each are corners of the unit cube, lie in the
    plane of the face (coordinate 1 along the axis for XPOS, YPOS, ZPOS and 0
    for XNEG, YNEG, ZNEG) and are ordered counter-clockwise seen from outside:
    the cross product [(v2-v1) x (v3-v2)] is the outward unit vector of the
    face's direction, and so is the one at every other vertex. *)
Theorem createBlockFaces_outward_quads (uvOffsets : array6 vec2) :
  let faces := array6_to_list (Block.createBlockFaces uvOffsets) in
  length faces = 6%nat /\
  map direction faces = [XPOS; XNEG; YPOS; YNEG; ZPOS; ZNEG] /\
  Forall outward_quad faces /\
  Forall (fun f => xyz (normal f) = Some (outward (direction f))) faces.
Proof.
  cbv zeta. split; [reflexivity|]. split; [reflexivity|]. split.
  - unfold array6_to_list.
    repeat apply Forall_cons_2; try apply Forall_nil_2;
      unfold outward_quad;
      do 4 eexists; (do 4 (split; [vm_compute; reflexivity|]));
      (split; [repeat constructor; cbn; lia|]); repeat split.
  - unfold array6_to_list.
    repeat apply Forall_cons_2; try apply Forall_nil_2; reflexivity.
Qed.

(** C3, as amended: vertex 1 of face [i] carries the offset [uvOffsets[i]]
    itself, and the vertices 2, 3 and 4 carry the sums of floats of the
    offset and [(1/16, 0)], [(1/16, 1/16)] and [(0, 1/16)], where [1/16] is
    exact and each sum is rounded to a float.  When the offset is a cell of
    the 16 x 16 atlas, [(k/16, l/16)] with [k] and [l] between 0 and 15,
    nothing is rounded: the four UV coordinates are, as numbers, the corners
    of the square of side [1/16] at the offset. *)
Theorem createBlockFaces_uv (uvOffsets : array6 vec2) (i : nat) (o : vec2) :
  array6_at uvOffsets i = Some o ->
  exists f : BlockFace,
    array6_at (Block.createBlockFaces uvOffsets) i = Some f /\
    uv (v1 f) = o /\
    uv (v2 f) = vec2_add o (Vec2 sixteenth zero) /\
    uv (v3 f) = vec2_add o (Vec2 sixteenth sixteenth) /\
    uv (v4 f) = vec2_add o (Vec2 zero sixteenth) /\
    F32.to_Q sixteenth = Some (1 # 16)%Q /\
    (forall k l : Z,
        0 <= k < 16 -> 0 <= l < 16 -> o = Vec2 (cell k) (cell l) ->
        exact_sub_image o f).
Proof.
  intros Ho.
  assert (Hgrid : forall (f : BlockFace) (k l : Z),
             0 <= k < 16 -> 0 <= l < 16 -> o = Vec2 (cell k) (cell l) ->
             uv (v1 f) = o ->
             uv (v2 f) = vec2_add o (Vec2 sixteenth zero) ->
             uv (v3 f) = vec2_add o (Vec2 sixteenth sixteenth) ->
             uv (v4 f) = vec2_add o (Vec2 zero sixteenth) ->
             exact_sub_image o f).
  { intros f k l Hk Hl -> H1 H2 H3 H4.
    destruct (cell_steps k Hk) as (Hk1 & Hk0 & Hkq & Hkq1).
    destruct (cell_steps l Hl) as (Hl1 & Hl0 & Hlq & Hlq1).
    fold sixteenth zero in Hk1, Hk0, Hl1, Hl0.
    unfold vec2_add in H2, H3, H4. cbn [v2x v2y] in H2, H3, H4.
    exists (Qred (k # 16)), (Qred (l # 16)).
    split; [exact Hkq|]. split; [exact Hlq|].
    rewrite H1, H2, H3, H4. unfold uv_is. cbn [v2x v2y].
    rewrite !Hk1, !Hk0, !Hl1, !Hl0.
    repeat split; do 2 eexists;
      (split; [eassumption|]); (split; [eassumption|]);
      split; first [reflexivity | apply cell_succ_value]. }
  unfold array6_at, array6_to_list in Ho.
  do 6 (destruct i as [|i];
        [cbn in Ho; simplify_eq; eexists; split; [reflexivity|];
         do 5 (split; [reflexivity|]);
         intros k l Hk Hl Hkl;
         apply (Hgrid _ k l Hk Hl Hkl); reflexivity |]).
  discriminate Ho.
Qed.

Lemma createBlockFaces_uv_witness :
  exists f : BlockFace,
    array6_at
      (Block.createBlockFaces
         (Array6 (Vec2 zero zero) (Vec2 zero zero) (Vec2 zero zero)
            (Vec2 (cell 15) (cell 9)) (Vec2 zero zero) (Vec2 zero zero))) 3
    = Some f /\
    uv (v1 f) = Vec2 (cell 15) (cell 9) /\
    uv (v2 f) = vec2_add (Vec2 (cell 15) (cell 9)) (Vec2 sixteenth zero) /\
    uv (v3 f)
    = vec2_add (Vec2 (cell 15) (cell 9)) (Vec2 sixteenth sixteenth) /\
    uv (v4 f) = vec2_add (Vec2 (cell 15) (cell 9)) (Vec2 zero sixteenth) /\
    F32.to_Q sixteenth = Some (1 # 16)%Q /\
    (forall k l : Z,
        0 <= k < 16 -> 0 <= l < 16 ->
        Vec2 (cell 15) (cell 9) = Vec2 (cell k) (cell l) ->
        exact_sub_image (Vec2 (cell 15) (cell 9)) f).
Proof.
  apply (createBlockFaces_uv
           (Array6 (Vec2 zero zero) (Vec2 zero zero) (Vec2 zero zero)
              (Vec2 (cell 15) (cell 9)) (Vec2 zero zero) (Vec2 zero zero))
           3%nat).
  reflexivity.
Defined.

(** C3, as stated, fails: for the offset [(16777216, 0)] the sum of floats
    [16777216 + 1/16] is rounded to [16777216], so the second UV coordinate
    of the face is not the offset plus [(1/16, 0)] and the four coordinates
    are not the corners of a square of side [1/16]. *)
Lemma createBlockFaces_uv_not_exact :
  ~ (exists (o : vec2) (f : BlockFace),
        array6_at
          (Array6 (Vec2 (F32.of_Z 16777216) zero) (Vec2 zero zero)
             (Vec2 zero zero) (Vec2 zero zero) (Vec2 zero zero)
             (Vec2 zero zero)) 0 = Some o /\
        array6_at
          (Block.createBlockFaces
             (Array6 (Vec2 (F32.of_Z 16777216) zero) (Vec2 zero zero)
                (Vec2 zero zero) (Vec2 zero zero) (Vec2 zero zero)
                (Vec2 zero zero))) 0 = Some f /\
        exact_sub_image o f).
Proof.
  intros (o & f & Ho & Hf & ox & oy & Hox & Hoy & _ & H2 & _).
  unfold array6_at, array6_to_list in Ho, Hf. cbn [lookup list_lookup] in Ho, Hf.
  injection Ho as <-. injection Hf as <-.
  destruct H2 as (a & b & Ha & _ & Hab & _).
  vm_compute in Hox. vm_compute in Ha.
  injection Hox as <-. injection Ha as <-.
  vm_compute in Hab. discriminate Hab.
Qed.

(** C4: whatever the UV offsets, every face carries as its normal the
    outward unit axis vector of its direction tag: [(1,0,0,0)] for XPOS,
    [(-1,0,0,0)] for XNEG, [(0,1,0,0)] for YPOS, [(0,-1,0,0)] for YNEG,
    [(0,0,1,0)] for ZPOS and [(0,0,-1,0)] for ZNEG; all six tags occur. *)
Theorem createBlockFaces_normals (uvOffsets : array6 vec2) :
  let faces := array6_to_list (Block.createBlockFaces uvOffsets) in
  Forall (fun f => normal f = axis_normal (direction f) /\
                   xyz (normal f) = Some (outward (direction f)) /\
                   F32.to_Z (v4w (normal f)) = Some 0) faces /\
  map direction faces = [XPOS; XNEG; YPOS; YNEG; ZPOS; ZNEG].
Proof.
  cbv zeta. split; [|reflexivity].
  unfold array6_to_list.
  repeat apply Forall_cons_2; try apply Forall_nil_2; repeat split.
Qed.

(** ** The registry *)

Lemma reachable_sets (r : Block.Registry) :
  Block.reachable r ->
  Block.transparentBlockTypes r = {[ EMPTY; WATER; ICE ]} /\
  Block.animatableBlockTypes r = {[ WATER; LAVA ]} /\
  Block.liquidBlockTypes r = {[ WATER; LAVA ]}.
Proof.
  induction 1 as [faces | blockType uv0 r Hr IH].
  - repeat split.
  - exact IH.
Qed.

(** C2: after [insertNewUVCoord t uv] the registry maps [t] to the six faces
    [createBlockFaces uv], one per direction in the order XPOS, XNEG, YPOS,
    YNEG, ZPOS, ZNEG. *)
Theorem insertNewUVCoord_lookup (t : BlockType) (uv0 : array6 vec2)
    (r : Block.Registry) :
  Block.BlockCollection (Block.insertNewUVCoord t uv0 r) !! t
  = Some (Block.createBlockFaces uv0) /\
  map direction (array6_to_list (Block.createBlockFaces uv0))
  = [XPOS; XNEG; YPOS; YNEG; ZPOS; ZNEG].
Proof.
  split.
  - unfold Block.insertNewUVCoord. cbn. apply lookup_insert_eq.
  - apply createBlockFaces_directions.
Qed.

(** C6: [insertNewUVCoord t uv] changes the entry of [t] only: the entry of
    every other block type is what it was, and so are the three sets. *)
Theorem insertNewUVCoord_frame (t t' : BlockType) (uv0 : array6 vec2)
    (r : Block.Registry) :
  t' <> t ->
  Block.BlockCollection (Block.insertNewUVCoord t uv0 r) !! t'
  = Block.BlockCollection r !! t' /\
  Block.transparentBlockTypes (Block.insertNewUVCoord t uv0 r)
  = Block.transparentBlockTypes r /\
  Block.animatableBlockTypes (Block.insertNewUVCoord t uv0 r)
  = Block.animatableBlockTypes r /\
  Block.liquidBlockTypes (Block.insertNewUVCoord t uv0 r)
  = Block.liquidBlockTypes r.
Proof.
  intros Hne. split; [|repeat split].
  unfold Block.insertNewUVCoord. cbn.
  apply lookup_insert_ne. congruence.
Qed.

Lemma insertNewUVCoord_frame_witness :
  let uv0 := Array6 (Vec2 zero zero) (Vec2 zero zero) (Vec2 zero zero)
               (Vec2 zero zero) (Vec2 zero zero) (Vec2 zero zero) in
  let r := Block.insertNewUVCoord DIRT uv0 (Block.initial ∅) in
  DIRT <> GRASS /\
  Block.BlockCollection (Block.insertNewUVCoord GRASS uv0 r) !! DIRT
  = Block.BlockCollection r !! DIRT /\
  Block.transparentBlockTypes (Block.insertNewUVCoord GRASS uv0 r)
  = Block.transparentBlockTypes r /\
  Block.animatableBlockTypes (Block.insertNewUVCoord GRASS uv0 r)
  = Block.animatableBlockTypes r /\
  Block.liquidBlockTypes (Block.insertNewUVCoord GRASS uv0 r)
  = Block.liquidBlockTypes r.
Proof.
  cbv zeta. split; [discriminate|].
  apply insertNewUVCoord_frame. discriminate.
Defined.

(** C5: in every registry the program can be in, [isTransparent] holds
    exactly of EMPTY, WATER and ICE, [isAnimatable] exactly of WATER and LAVA,
    and [isLiquid] exactly of WATER and LAVA. *)
Theorem block_type_predicates (r : Block.Registry) (t : BlockType) :
  Block.reachable r ->
  (Block.isTransparent r t = true <-> t = EMPTY \/ t = WATER \/ t = ICE) /\
  (Block.isAnimatable r t = true <-> t = WATER \/ t = LAVA) /\
  (Block.isLiquid r t = true <-> t = WATER \/ t = LAVA).
Proof.
  intros Hr. destruct (reachable_sets r Hr) as (Ht & Ha & Hl).
  unfold Block.isTransparent, Block.isAnimatable, Block.isLiquid.
  rewrite !bool_decide_eq_true, Ht, Ha, Hl.
  rewrite !elem_of_union, !elem_of_singleton.
  tauto.
Qed.

Lemma block_type_predicates_witness :
  let uv0 := Array6 (Vec2 zero zero) (Vec2 zero zero) (Vec2 zero zero)
               (Vec2 zero zero) (Vec2 zero zero) (Vec2 zero zero) in
  let r := Block.insertNewUVCoord ICE uv0 (Block.initial ∅) in
  (Block.isTransparent r ICE = true <-> ICE = EMPTY \/ ICE = WATER \/ ICE = ICE) /\
  (Block.isAnimatable r ICE = true <-> ICE = WATER \/ ICE = LAVA) /\
  (Block.isLiquid r ICE = true <-> ICE = WATER \/ ICE = LAVA).
Proof.
  cbv zeta. apply block_type_predicates.
  apply Block.reachable_insert, Block.reachable_initial.
Defined.

(** C8: [isOpaque] is the negation of [isTransparent], in every registry, so
    every block type is exactly one of opaque and transparent. *)
Theorem isOpaque_negb_isTransparent (r : Block.Registry) (t : BlockType) :
  Block.isOpaque r t = negb (Block.isTransparent r t) /\
  xorb (Block.isOpaque r t) (Block.isTransparent r t) = true.
Proof.
  assert (H : Block.isOpaque r t = negb (Block.isTransparent r t)).
  { unfold Block.isOpaque, Block.isTransparent. apply bool_decide_not. }
  split; [exact H|]. rewrite H.
  destruct (Block.isTransparent r t); reflexivity.
Qed.

(** C9: in every registry the program can be in, [isAnimatable] and
    [isLiquid] agree on every block type: the set of animatable types and the
    set of liquid types are the same set, WATER and LAVA. *)
Theorem isAnimatable_eq_isLiquid (r : Block.Registry) (t : BlockType) :
  Block.reachable r ->
  Block.isAnimatable r t = Block.isLiquid r t /\
  Block.animatableBlockTypes r = Block.liquidBlockTypes r /\
  Block.liquidBlockTypes r = {[ WATER; LAVA ]}.
Proof.
  intros Hr. destruct (reachable_sets r Hr) as (_ & Ha & Hl).
  unfold Block.isAnimatable, Block.isLiquid.
  rewrite Ha, Hl. repeat split.
Qed.

Lemma isAnimatable_eq_isLiquid_witness :
  let r := Block.initial ∅ in
  Block.isAnimatable r LAVA = Block.isLiquid r LAVA /\
  Block.animatableBlockTypes r = Block.liquidBlockTypes r /\
  Block.liquidBlockTypes r = {[ WATER; LAVA ]}.
Proof.
  cbv zeta. apply isAnimatable_eq_isLiquid. apply Block.reachable_initial.
Defined.

(** C10: [getAnimatableFlag] returns the vector [(1, 1)] when [isAnimatable]
    holds of the block type and [(-1, -1)] otherwise, and nothing else. *)
Theorem getAnimatableFlag_values (r : Block.Registry) (t : BlockType) :
  Block.getAnimatableFlag r t
  = (if Block.isAnimatable r t
     then Vec2 (F32.of_Z 1) (F32.of_Z 1)
     else Vec2 (F32.of_Z (-1)) (F32.of_Z (-1))) /\
  (Block.getAnimatableFlag r t = Vec2 (F32.of_Z 1) (F32.of_Z 1) \/
   Block.getAnimatableFlag r t = Vec2 (F32.of_Z (-1)) (F32.of_Z (-1))) /\
  F32.to_Z (F32.of_Z 1) = Some 1 /\ F32.to_Z (F32.of_Z (-1)) = Some (-1).
Proof.
  unfold Block.getAnimatableFlag.
  destruct (Block.isAnimatable r t); repeat split; auto.
Qed.


(** ** The loader *)

Lemma blockTypeMap_names (name : string) (t : BlockType) :
  Block.blockTypeMap !! name = Some t ->
  (name, t) ∈
    [("GRASS"%string, GRASS); ("DIRT"%string, DIRT); ("STONE"%string, STONE);
     ("WATER"%string, WATER); ("SNOW"%string, SNOW); ("LAVA"%string, LAVA);
     ("BEDROCK"%string, BEDROCK); ("ICE"%string, ICE); ("WOOD"%string, WOOD);
     ("LEAF"%string, LEAF)].
Proof. intros H. apply elem_of_list_to_map_2 in H. exact H. Qed.

Ltac each_name H :=
  apply blockTypeMap_names in H;
  repeat (apply elem_of_cons in H; destruct H as [H | H];
          [simplify_eq |]);
  [.. | apply elem_of_nil in H; destruct H].

Lemma blockTypeMap_not_skipped (name : string) (t : BlockType) :
  Block.blockTypeMap !! name = Some t -> Block.skipLine name = false.
Proof. intros H. each_name H; reflexivity. Qed.

Lemma blockTypeMap_one_part (name : string) (t : BlockType) :
  Block.blockTypeMap !! name = Some t ->
  Block.split " "%char name !! 1%nat = None.
Proof. intros H. each_name H; reflexivity. Qed.

Lemma blockTypeMap_not_EMPTY (name : string) :
  Block.blockTypeMap !! name <> Some EMPTY.
Proof. intros H. each_name H. Qed.

Lemma split_nonempty (sep : ascii) (line : string) :
  exists part parts, Block.split sep line = part :: parts.
Proof.
  induction line as [|c rest IH]; cbn.
  - eauto.
  - destruct (bool_decide (c = sep)); [eauto|].
    destruct IH as (part & parts & ->). eauto.
Qed.

Lemma insertAll_cons (c : BlockType * array6 vec2)
    (calls : list (BlockType * array6 vec2)) (r : Block.Registry) :
  insertAll (c :: calls) r
  = insertAll calls (Block.insertNewUVCoord (fst c) (snd c) r).
Proof. reflexivity. Qed.

Lemma insertAll_sets (calls : list (BlockType * array6 vec2))
    (r : Block.Registry) :
  Block.transparentBlockTypes (insertAll calls r)
  = Block.transparentBlockTypes r /\
  Block.animatableBlockTypes (insertAll calls r)
  = Block.animatableBlockTypes r /\
  Block.liquidBlockTypes (insertAll calls r) = Block.liquidBlockTypes r.
Proof.
  revert r. induction calls as [|c calls IH]; intros r.
  - repeat split.
  - rewrite insertAll_cons.
    destruct (IH (Block.insertNewUVCoord (fst c) (snd c) r)) as (-> & -> & ->).
    repeat split.
Qed.

Lemma insertAll_reachable (calls : list (BlockType * array6 vec2))
    (r : Block.Registry) :
  Block.reachable r -> Block.reachable (insertAll calls r).
Proof.
  revert r. induction calls as [|c calls IH]; intros r Hr.
  - exact Hr.
  - rewrite insertAll_cons. apply IH. apply Block.reachable_insert. exact Hr.
Qed.

Lemma insertAll_other (calls : list (BlockType * array6 vec2))
    (r : Block.Registry) (t : BlockType) :
  Forall (fun c => fst c <> t) calls ->
  Block.BlockCollection (insertAll calls r) !! t
  = Block.BlockCollection r !! t.
Proof.
  revert r. induction calls as [|c calls IH]; intros r Hne.
  - reflexivity.
  - apply Forall_cons_1 in Hne as [Hc Hne].
    rewrite insertAll_cons, (IH _ Hne). cbn. apply lookup_insert_ne. exact Hc.
Qed.

Lemma array6_set_in_range (uvs : array6 vec2) (k : nat) (c : vec2) :
  (k < 6)%nat -> exists arr, array6_set uvs k c = Some arr.
Proof.
  intros Hk. destruct k as [|[|[|[|[|[|k]]]]]]; cbn; eauto. lia.
Qed.

Section LoaderProperties.

Variable toDouble : string -> F32.float.

Ltac loop_cases line st Hst :=
  unfold Block.processLine;
  destruct st as [rc cc uvs cur reg];
  destruct Hst as [Hlt Hidle];
  cbn [Block.readCoord Block.coordCount Block.uvOffsets Block.currBlockType
         Block.registry] in *;
  destruct (Block.skipLine line) eqn:Hskip;
  [| destruct rc;
     [ clear Hidle;
       destruct (Block.parseCoord toDouble line) as [c|] eqn:Hparse;
       [ destruct cc as [|[|[|[|[|[|cc]]]]]]; [.. | exfalso; lia] |]
     | pose proof (Hidle eq_refl); subst cc; clear Hidle;
       destruct (Block.blockTypeMap !! line) as [t|] eqn:Hname ] ];
  cbn.

Lemma parseCoord_one_part (line : string) :
  Block.split " "%char line !! 1%nat = None ->
  Block.parseCoord toDouble line = None.
Proof.
  unfold Block.parseCoord.
  destruct (split_nonempty " "%char line) as (part & parts & ->).
  cbn. intros ->. reflexivity.
Qed.

Lemma processLine_skipped (line : string) (st : Block.LoadState) :
  Block.skipLine line = true -> Block.processLine toDouble line st = Some st.
Proof. intros H. unfold Block.processLine. rewrite H. reflexivity. Qed.

Lemma processLine_counting (line : string) (st st' : Block.LoadState) :
  counting st -> Block.processLine toDouble line st = Some st' -> counting st'.
Proof.
  intros Hst. loop_cases line st Hst; intros Hst'; simplify_eq;
    unfold counting; cbn; try (split; [lia | congruence]).
  auto.
Qed.

Lemma processLines_counting (lines : list string) :
  forall st st' : Block.LoadState,
    counting st -> Block.processLines toDouble lines st = Some st' ->
    counting st'.
Proof.
  induction lines as [|line rest IH]; cbn; intros st st' Hst Hrun.
  - simplify_eq. exact Hst.
  - destruct (Block.processLine toDouble line st) as [st1|] eqn:Hstep;
      cbn in Hrun; [|discriminate].
    eapply IH; [|exact Hrun]. eapply processLine_counting; eauto.
Qed.

Lemma counting_start (uv0 : array6 vec2) (t0 : BlockType)
    (r : Block.Registry) :
  counting (Block.mkLoadState false 0 uv0 t0 r).
Proof. split; cbn; [lia | reflexivity]. Qed.

Lemma processLines_app (pre post : list string) :
  forall st : Block.LoadState,
    Block.processLines toDouble (pre ++ post) st
    = Block.processLines toDouble pre st
        ≫= Block.processLines toDouble post.
Proof.
  induction pre as [|line pre IH]; intros st; [reflexivity|].
  cbn. destruct (Block.processLine toDouble line st) as [st1|]; cbn;
    [apply IH | reflexivity].
Qed.

Lemma parseCoord_None_one_part (line : string) :
  Block.parseCoord toDouble line = None ->
  Block.split " "%char line !! 1%nat = None.
Proof.
  unfold Block.parseCoord.
  destruct (split_nonempty " "%char line) as (part & parts & ->).
  destruct parts; cbn; [reflexivity | discriminate].
Qed.

Lemma processLine_None (line : string) (st : Block.LoadState) :
  counting st ->
  (Block.processLine toDouble line st = None <->
   Block.readCoord st = true /\ Block.skipLine line = false /\
   Block.split " "%char line !! 1%nat = None).
Proof.
  intros Hst. split.
  - loop_cases line st Hst; try discriminate.
    intros _. repeat split. apply parseCoord_None_one_part. exact Hparse.
  - intros (Hrd & Hskip & Hone). unfold Block.processLine.
    rewrite Hskip, Hrd. cbn.
    rewrite (parseCoord_one_part line Hone). reflexivity.
Qed.

Lemma processLines_None (lines : list string) :
  forall st0 : Block.LoadState,
    counting st0 -> Block.processLines toDouble lines st0 = None ->
    exists (pre : list string) (line : string) (post : list string)
           (st : Block.LoadState),
      lines = pre ++ line :: post /\
      Block.processLines toDouble pre st0 = Some st /\
      Block.readCoord st = true /\ Block.skipLine line = false /\
      Block.split " "%char line !! 1%nat = None.
Proof.
  induction lines as [|line rest IH]; cbn; intros st0 Hst0 Hrun.
  - discriminate.
  - destruct (Block.processLine toDouble line st0) as [st1|] eqn:Hstep;
      cbn in Hrun.
    + destruct (IH st1) as (pre & l & post & st & -> & Hpre & Hl);
        [eapply processLine_counting; eauto | exact Hrun |].
      exists (line :: pre), l, post, st. split; [reflexivity|].
      split; [|exact Hl]. cbn. rewrite Hstep. exact Hpre.
    + exists [], line, rest, st0. split; [reflexivity|].
      split; [reflexivity|].
      apply (processLine_None line st0 Hst0). exact Hstep.
Qed.

(** X1: the loader fails exactly when, while a block is being read, it
    comes to a line that is neither empty nor a comment and has no second
    part: the file splits into the lines the loop gets through, which leave
    it reading a block, that line, and the rest.  Nothing else makes it
    fail: after every part of the file that the loop gets through the
    counter is below 6, so the write [uvOffsets[coordCount]] of the next
    iteration is inside the array. *)
Theorem loadUVCoordFromText_fails_on_short_line (uv0 : array6 vec2)
    (t0 : BlockType) (lines : list string) (r : Block.Registry) :
  (Block.loadUVCoordFromText toDouble uv0 t0 lines r = None <->
   exists (pre : list string) (line : string) (post : list string)
          (st : Block.LoadState),
     lines = pre ++ line :: post /\
     Block.processLines toDouble pre (Block.mkLoadState false 0 uv0 t0 r)
     = Some st /\
     Block.readCoord st = true /\ Block.skipLine line = false /\
     Block.split " "%char line !! 1%nat = None) /\
  (forall (pre post : list string) (st : Block.LoadState) (c : vec2),
      lines = pre ++ post ->
      Block.processLines toDouble pre (Block.mkLoadState false 0 uv0 t0 r)
      = Some st ->
      (Block.coordCount st < 6)%nat /\
      is_Some (array6_set (Block.uvOffsets st) (Block.coordCount st) c)).
Proof.
  split; [split|].
  - unfold Block.loadUVCoordFromText. intros Hload.
    apply (processLines_None lines (Block.mkLoadState false 0 uv0 t0 r)).
    + apply counting_start.
    + destruct (Block.processLines _ _ _); [discriminate | reflexivity].
  - intros (pre & line & post & st & -> & Hpre & Hrd & Hskip & Hone).
    unfold Block.loadUVCoordFromText.
    rewrite processLines_app, Hpre. cbn.
    assert (Hstep : Block.processLine toDouble line st = None).
    { apply processLine_None; [|auto].
      eapply processLines_counting; [apply counting_start | exact Hpre]. }
    rewrite Hstep. reflexivity.
  - intros pre post st c _ Hpre.
    assert (Hst : counting st).
    { eapply processLines_counting; [apply counting_start | exact Hpre]. }
    destruct Hst as [Hlt _]. split; [exact Hlt|].
    destruct (array6_set_in_range (Block.uvOffsets st)
                (Block.coordCount st) c Hlt) as [arr Harr].
    exists arr. exact Harr.
Qed.

Lemma processLine_agree (line : string) (st1 st2 : Block.LoadState) :
  agree st1 st2 -> counting st1 ->
  match Block.processLine toDouble line st1,
        Block.processLine toDouble line st2 with
  | Some st1', Some st2' => agree st1' st2'
  | None, None => True
  | _, _ => False
  end.
Proof.
  intros Hag [Hlt Hidle].
  destruct st1 as [rc cc uvs1 cur1 reg], st2 as [rc2 cc2 uvs2 cur2 reg2].
  destruct Hag as (Hrc & Hcc & Hreg & Hrd). cbn in *. subst rc2 cc2 reg2.
  unfold Block.processLine. cbn.
  destruct (Block.skipLine line).
  { unfold agree; cbn. auto. }
  destruct rc.
  - destruct (Hrd eq_refl) as [-> Harr]. clear Hrd Hidle.
    destruct (Block.parseCoord toDouble line) as [c|]; cbn; [|exact I].
    pose proof (Harr 0%nat) as E0. pose proof (Harr 1%nat) as E1.
    pose proof (Harr 2%nat) as E2. pose proof (Harr 3%nat) as E3.
    pose proof (Harr 4%nat) as E4. clear Harr.
    destruct uvs1 as [p0 p1 p2 p3 p4 p5], uvs2 as [q0 q1 q2 q3 q4 q5].
    unfold array6_at in *. cbn in *.
    destruct cc as [|[|[|[|[|[|cc]]]]]]; cbn; try lia;
      unfold agree; cbn;
      repeat match goal with
        | H : (?a < ?b)%nat -> _ |- _ =>
            first [ specialize (H ltac:(lia)) | clear H ]
        end;
      simplify_eq;
      repeat split; try reflexivity; try discriminate;
      intros i Hi;
      repeat (destruct i as [|i]; [reflexivity|]); lia.
  - pose proof (Hidle eq_refl); subst cc. clear Hrd.
    destruct (Block.blockTypeMap !! line) as [t|]; cbn;
      unfold agree; cbn; repeat split; try discriminate.
    intros; lia.
Qed.

Lemma agree_counting (st1 st2 : Block.LoadState) :
  agree st1 st2 -> counting st1 -> counting st2.
Proof.
  intros (Hrc & Hcc & _) [Hlt Hidle]. unfold counting.
  rewrite <- Hrc, <- Hcc. auto.
Qed.

Lemma processLines_agree (lines : list string) :
  forall st1 st2 : Block.LoadState,
    agree st1 st2 -> counting st1 ->
    Block.registry <$> Block.processLines toDouble lines st1
    = Block.registry <$> Block.processLines toDouble lines st2.
Proof.
  induction lines as [|line rest IH]; cbn; intros st1 st2 Hag Hst.
  - destruct Hag as (_ & _ & -> & _). reflexivity.
  - pose proof (processLine_agree line st1 st2 Hag Hst) as Hstep.
    destruct (Block.processLine toDouble line st1) as [st1'|] eqn:H1,
             (Block.processLine toDouble line st2) as [st2'|] eqn:H2;
      cbn; try contradiction; [|reflexivity].
    apply IH; [exact Hstep|]. eapply processLine_counting; eauto.
Qed.

(** X2: the result of the loader does not depend on what the locals
    [uvOffsets] and [currBlockType], which the source leaves uninitialised,
    contain at the start. *)
Theorem loadUVCoordFromText_ignores_initial_locals (uv0 uv0' : array6 vec2)
    (t0 t0' : BlockType) (lines : list string) (r : Block.Registry) :
  Block.loadUVCoordFromText toDouble uv0 t0 lines r
  = Block.loadUVCoordFromText toDouble uv0' t0' lines r.
Proof.
  unfold Block.loadUVCoordFromText. apply processLines_agree.
  - unfold agree; cbn. repeat split; discriminate.
  - apply counting_start.
Qed.

Lemma processLines_cons_Some (line : string) (rest : list string)
    (st st1 : Block.LoadState) :
  Block.processLine toDouble line st = Some st1 ->
  Block.processLines toDouble (line :: rest) st
  = Block.processLines toDouble rest st1.
Proof. intros H. cbn. rewrite H. reflexivity. Qed.

Lemma processLine_name (name : string) (t : BlockType) (uvs : array6 vec2)
    (cur : BlockType) (reg : Block.Registry) :
  Block.blockTypeMap !! name = Some t ->
  Block.processLine toDouble name (Block.mkLoadState false 0 uvs cur reg)
  = Some (Block.mkLoadState true 0 uvs t reg).
Proof.
  intros Hname. unfold Block.processLine.
  rewrite (blockTypeMap_not_skipped name t Hname). cbn.
  rewrite Hname. reflexivity.
Qed.

Lemma processLine_coord (line : string) (c : vec2) (k : nat)
    (uvs arr : array6 vec2) (cur : BlockType) (reg : Block.Registry) :
  Block.skipLine line = false ->
  Block.parseCoord toDouble line = Some c ->
  array6_set uvs k c = Some arr ->
  Block.processLine toDouble line (Block.mkLoadState true k uvs cur reg)
  = Some (if (S k =? 6)%nat
          then Block.mkLoadState false 0 arr cur
                 (Block.insertNewUVCoord cur arr reg)
          else Block.mkLoadState true (S k) arr cur reg).
Proof.
  intros Hskip Hparse Hset. unfold Block.processLine.
  rewrite Hskip. cbn. rewrite Hparse. cbn. rewrite Hset. cbn.
  destruct (k =? 5)%nat; reflexivity.
Qed.

Lemma processLines_block (name : string) (t : BlockType) (cs rest : list string)
    (vs uv0 : array6 vec2) (t0 : BlockType) (r : Block.Registry) :
  Block.blockTypeMap !! name = Some t ->
  Forall2 (fun c v => Block.skipLine c = false /\
                      Block.parseCoord toDouble c = Some v)
    cs (array6_to_list vs) ->
  Block.processLines toDouble (name :: cs ++ rest)
    (Block.mkLoadState false 0 uv0 t0 r)
  = Block.processLines toDouble rest
      (Block.mkLoadState false 0 vs t (Block.insertNewUVCoord t vs r)).
Proof.
  intros Hname Hcs. destruct vs as [w0 w1 w2 w3 w4 w5].
  unfold array6_to_list in Hcs. cbn in Hcs.
  repeat (apply Forall2_cons_inv_r in Hcs as (? & ? & [? ?] & Hcs & ->)).
  apply Forall2_nil_inv_r in Hcs as ->.
  cbn [app].
  rewrite (processLines_cons_Some _ _ _ _ (processLine_name _ _ _ _ _ Hname)).
  repeat (erewrite processLines_cons_Some;
          [| eapply processLine_coord; [eassumption | eassumption | reflexivity]];
          cbn [Nat.eqb a0 a1 a2 a3 a4 a5]).
  reflexivity.
Qed.

(** X3: a block name followed by six coordinate lines has the effect of one
    call of [insertNewUVCoord] with that block type and the six coordinates
    parsed from the lines, in their order; the loader then goes on with the
    rest of the file. *)
Theorem loadUVCoordFromText_block (name : string) (t : BlockType)
    (cs rest : list string) (vs uv0 : array6 vec2) (t0 : BlockType)
    (r : Block.Registry) :
  Block.blockTypeMap !! name = Some t ->
  Forall2 (fun c v => Block.skipLine c = false /\
                      Block.parseCoord toDouble c = Some v)
    cs (array6_to_list vs) ->
  Block.loadUVCoordFromText toDouble uv0 t0 (name :: cs ++ rest) r
  = Block.loadUVCoordFromText toDouble uv0 t0 rest
      (Block.insertNewUVCoord t vs r).
Proof.
  intros Hname Hcs. unfold Block.loadUVCoordFromText.
  rewrite (processLines_block name t cs rest vs uv0 t0 r Hname Hcs).
  apply processLines_agree.
  - unfold agree; cbn. repeat split; discriminate.
  - apply counting_start.
Qed.

(** X4: empty lines and lines that start with [#] have no effect, wherever
    they stand: the loader gives the same result on the file without them. *)
Theorem loadUVCoordFromText_skips_comments (uv0 : array6 vec2)
    (t0 : BlockType) (lines : list string) (r : Block.Registry) :
  Block.loadUVCoordFromText toDouble uv0 t0
    (filter (fun line => Block.skipLine line = false) lines) r
  = Block.loadUVCoordFromText toDouble uv0 t0 lines r.
Proof.
  unfold Block.loadUVCoordFromText. f_equal.
  generalize (Block.mkLoadState false 0 uv0 t0 r).
  induction lines as [|line rest IH]; intros st; [reflexivity|].
  destruct (Block.skipLine line) eqn:Hskip.
  - rewrite filter_cons_False by (rewrite Hskip; discriminate).
    rewrite (processLines_cons_Some line rest st st
               (processLine_skipped line st Hskip)).
    apply IH.
  - rewrite filter_cons_True by exact Hskip.
    cbn. destruct (Block.processLine toDouble line st); cbn; [apply IH | reflexivity].
Qed.

Lemma processLine_calls (line : string) (st st1 : Block.LoadState) :
  counting st -> Block.processLine toDouble line st = Some st1 ->
  exists calls : list (BlockType * array6 vec2),
    Block.registry st1 = insertAll calls (Block.registry st) /\
    Forall (fun c => Block.readCoord st = true /\
                     fst c = Block.currBlockType st) calls /\
    (Block.readCoord st1 = true ->
     (Block.readCoord st = true /\
      Block.currBlockType st1 = Block.currBlockType st) \/
     Block.blockTypeMap !! line = Some (Block.currBlockType st1)) /\
    (7 * length calls + paid st1
     <= (if Block.skipLine line then 0 else 1) + paid st)%nat.
Proof.
  intros Hst. loop_cases line st Hst; intros Hst1; simplify_eq;
    unfold paid; cbn.
  7:{ eexists [(cur, _)]. cbn. split; [reflexivity|].
      repeat split; try discriminate; try lia.
      apply Forall_cons_2; [split; reflexivity | apply Forall_nil_2]. }
  all: exists []; cbn; repeat split; try apply Forall_nil_2; try lia; auto.
Qed.

Lemma insertAll_app (calls1 calls2 : list (BlockType * array6 vec2))
    (r : Block.Registry) :
  insertAll (calls1 ++ calls2) r = insertAll calls2 (insertAll calls1 r).
Proof. unfold insertAll. apply foldl_app. Qed.

Lemma processLines_calls (lines : list string) :
  forall st st' : Block.LoadState,
    counting st -> Block.processLines toDouble lines st = Some st' ->
    exists calls : list (BlockType * array6 vec2),
      Block.registry st' = insertAll calls (Block.registry st) /\
      Forall (fun c =>
                (exists line, line ∈ lines /\
                              Block.blockTypeMap !! line = Some (fst c)) \/
                (Block.readCoord st = true /\
                 fst c = Block.currBlockType st)) calls /\
      (7 * length calls + paid st'
       <= length (filter (fun line => Block.skipLine line = false) lines)
          + paid st)%nat.
Proof.
  induction lines as [|line rest IH]; intros st st' Hst Hrun.
  - cbn in Hrun. simplify_eq. exists []. cbn.
    repeat split; [apply Forall_nil_2 | lia].
  - cbn in Hrun.
    destruct (Block.processLine toDouble line st) as [st1|] eqn:Hstep;
      cbn in Hrun; [|discriminate].
    destruct (processLine_calls line st st1 Hst Hstep)
      as (calls1 & Hreg1 & Hcalls1 & Hcur1 & Hpaid1).
    destruct (IH st1 st' (processLine_counting line st st1 Hst Hstep) Hrun)
      as (calls2 & Hreg2 & Hcalls2 & Hpaid2).
    exists (calls1 ++ calls2). split; [|split].
    + rewrite insertAll_app, <- Hreg1. exact Hreg2.
    + apply Forall_app_2.
      * eapply Forall_impl; [exact Hcalls1|]. cbn. intros c Hc. right. exact Hc.
      * eapply Forall_impl; [exact Hcalls2|]. cbn.
        intros c [(l & Hl & Hname) | [Hrd Hc]].
        -- left. exists l. split; [apply list_elem_of_further; exact Hl | exact Hname].
        -- destruct (Hcur1 Hrd) as [[Hrd0 Hsame] | Hname].
           ++ right. split; [exact Hrd0 | congruence].
           ++ left. exists line. split; [apply list_elem_of_here|].
              rewrite Hc. exact Hname.
    + rewrite length_app.
      assert (length (filter (fun l => Block.skipLine l = false) (line :: rest))
              = ((if Block.skipLine line then 0 else 1)
                 + length (filter (fun l => Block.skipLine l = false) rest))%nat)
        as ->.
      { destruct (Block.skipLine line) eqn:Hskip.
        - rewrite filter_cons_False by (rewrite Hskip; discriminate). reflexivity.
        - rewrite filter_cons_True by exact Hskip. reflexivity. }
      lia.
Qed.

(** X5: whenever the loader returns, its result is the registry after a
    sequence of calls of [insertNewUVCoord]; each call is for a block type
    that a line of the file names, and each call takes at least seven lines
    that are neither empty nor comments. *)
Theorem loadUVCoordFromText_inserts (uv0 : array6 vec2) (t0 : BlockType)
    (lines : list string) (r r' : Block.Registry) :
  Block.loadUVCoordFromText toDouble uv0 t0 lines r = Some r' ->
  exists calls : list (BlockType * array6 vec2),
    r' = insertAll calls r /\
    Forall (fun c => exists line, line ∈ lines /\
                       Block.blockTypeMap !! line = Some (fst c)) calls /\
    (7 * length calls
     <= length (filter (fun line => Block.skipLine line = false) lines))%nat.
Proof.
  unfold Block.loadUVCoordFromText. intros Hload.
  destruct (Block.processLines toDouble lines
              (Block.mkLoadState false 0 uv0 t0 r)) as [st'|] eqn:Hrun;
    [|discriminate].
  cbn in Hload. simplify_eq.
  destruct (processLines_calls lines _ st' (counting_start uv0 t0 r) Hrun)
    as (calls & Hreg & Hcalls & Hpaid).
  exists calls. cbn in *. split; [exact Hreg|]. split.
  - eapply Forall_impl; [exact Hcalls|]. cbn.
    intros c [Hc | [Hrd _]]; [exact Hc | discriminate].
  - unfold paid in Hpaid. cbn in Hpaid. lia.
Qed.

(** X6: the loader leaves the three sets of block types as they are, keeps
    the registry among those the program can be in, and leaves the faces of
    every block type that no line of the file names as they are; the faces of
    EMPTY, which has no name, are never changed. *)
Theorem loadUVCoordFromText_frame (uv0 : array6 vec2) (t0 : BlockType)
    (lines : list string) (r r' : Block.Registry) :
  Block.loadUVCoordFromText toDouble uv0 t0 lines r = Some r' ->
  Block.transparentBlockTypes r' = Block.transparentBlockTypes r /\
  Block.animatableBlockTypes r' = Block.animatableBlockTypes r /\
  Block.liquidBlockTypes r' = Block.liquidBlockTypes r /\
  (Block.reachable r -> Block.reachable r') /\
  (forall t : BlockType,
      (forall line, line ∈ lines -> Block.blockTypeMap !! line <> Some t) ->
      Block.BlockCollection r' !! t = Block.BlockCollection r !! t) /\
  Block.BlockCollection r' !! EMPTY = Block.BlockCollection r !! EMPTY.
Proof.
  unfold Block.loadUVCoordFromText. intros Hload.
  destruct (Block.processLines toDouble lines
              (Block.mkLoadState false 0 uv0 t0 r)) as [st'|] eqn:Hrun;
    [|discriminate].
  cbn in Hload. simplify_eq.
  destruct (processLines_calls lines _ st' (counting_start uv0 t0 r) Hrun)
    as (calls & Hreg & Hcalls & _).
  cbn in Hreg, Hcalls. rewrite Hreg.
  destruct (insertAll_sets calls r) as (Ht & Ha & Hl).
  assert (Hother : forall t : BlockType,
             (forall line, line ∈ lines ->
                           Block.blockTypeMap !! line <> Some t) ->
             Block.BlockCollection (insertAll calls r) !! t
             = Block.BlockCollection r !! t).
  { intros t Ht'. apply insertAll_other.
    eapply Forall_impl; [exact Hcalls|]. cbn.
    intros c [(l & Hl' & Hname) | [Hrd _]] Heq; [|discriminate].
    apply (Ht' l Hl'). rewrite Hname, Heq. reflexivity. }
  repeat split; try assumption.
  - apply insertAll_reachable.
  - apply Hother. intros line _. apply blockTypeMap_not_EMPTY.
Qed.

Lemma processLines_without_names (lines : list string) (uv0 : array6 vec2)
    (t0 : BlockType) (r : Block.Registry) :
  (forall line, line ∈ lines -> Block.blockTypeMap !! line = None) ->
  Block.processLines toDouble lines (Block.mkLoadState false 0 uv0 t0 r)
  = Some (Block.mkLoadState false 0 uv0 t0 r).
Proof.
  induction lines as [|line rest IH]; intros Hnone; [reflexivity|].
  assert (Hstep : Block.processLine toDouble line
                    (Block.mkLoadState false 0 uv0 t0 r)
                  = Some (Block.mkLoadState false 0 uv0 t0 r)).
  { unfold Block.processLine. destruct (Block.skipLine line); [reflexivity|].
    cbn. rewrite (Hnone line (list_elem_of_here _ _)). reflexivity. }
  rewrite (processLines_cons_Some _ _ _ _ Hstep).
  apply IH. intros l Hl. apply Hnone. apply list_elem_of_further. exact Hl.
Qed.

(** X7: on a file none of whose lines is a block name the loader returns the
    registry unchanged, whatever else the lines contain; it does not fail. *)
Theorem loadUVCoordFromText_without_names (uv0 : array6 vec2)
    (t0 : BlockType) (lines : list string) (r : Block.Registry) :
  (forall line, line ∈ lines -> Block.blockTypeMap !! line = None) ->
  Block.loadUVCoordFromText toDouble uv0 t0 lines r = Some r.
Proof.
  intros Hnone. unfold Block.loadUVCoordFromText.
  rewrite (processLines_without_names lines uv0 t0 r Hnone). reflexivity.
Qed.

Lemma processLines_unfinished (cs : list string) :
  forall (k : nat) (uvs : array6 vec2) (cur : BlockType) (reg : Block.Registry),
    Forall (fun c => Block.skipLine c = true \/
                     is_Some (Block.parseCoord toDouble c)) cs ->
    (k + length (filter (fun c => Block.skipLine c = false) cs) < 6)%nat ->
    exists st', Block.processLines toDouble cs
                  (Block.mkLoadState true k uvs cur reg) = Some st' /\
                Block.registry st' = reg.
Proof.
  induction cs as [|c cs IH]; intros k uvs cur reg Hcs Hlen.
  - eexists. split; reflexivity.
  - apply Forall_cons_1 in Hcs as [Hc Hcs].
    destruct (Block.skipLine c) eqn:Hskip.
    + rewrite filter_cons_False in Hlen by (rewrite Hskip; discriminate).
      rewrite (processLines_cons_Some _ _ _ _
                 (processLine_skipped c _ Hskip)).
      apply IH; assumption.
    + rewrite filter_cons_True in Hlen by exact Hskip. cbn in Hlen.
      destruct Hc as [Hc | [v Hv]]; [discriminate|].
      destruct (array6_set_in_range uvs k v) as [arr Harr]; [lia|].
      rewrite (processLines_cons_Some _ _ _ _
                 (processLine_coord c v k uvs arr cur reg Hskip Hv Harr)).
      assert ((S k =? 6)%nat = false) as -> by (apply Nat.eqb_neq; lia).
      apply IH; [assumption | lia].
Qed.

(** X8: a block that the end of the file cuts short, a block name followed
    by fewer than six coordinate lines, is dropped: the registry is
    returned unchanged. *)
Theorem loadUVCoordFromText_unfinished_block (name : string) (t : BlockType)
    (cs : list string) (uv0 : array6 vec2) (t0 : BlockType)
    (r : Block.Registry) :
  Block.blockTypeMap !! name = Some t ->
  Forall (fun c => Block.skipLine c = true \/
                   is_Some (Block.parseCoord toDouble c)) cs ->
  (length (filter (fun c => Block.skipLine c = false) cs) < 6)%nat ->
  Block.loadUVCoordFromText toDouble uv0 t0 (name :: cs) r = Some r.
Proof.
  intros Hname Hcs Hlen. unfold Block.loadUVCoordFromText.
  rewrite (processLines_cons_Some _ _ _ _ (processLine_name _ _ _ _ _ Hname)).
  destruct (processLines_unfinished cs 0 uv0 t r Hcs) as (st' & -> & Hreg);
    [lia|].
  cbn. rewrite Hreg. reflexivity.
Qed.

(** X9: after a block name, a line that is neither empty nor a comment and
    has no second part makes the loader fail, whatever follows; this is so
    in particular when that line is another block name. *)
Theorem loadUVCoordFromText_short_line_after_name (name c : string)
    (t : BlockType) (rest : list string) (uv0 : array6 vec2) (t0 : BlockType)
    (r : Block.Registry) :
  Block.blockTypeMap !! name = Some t ->
  Block.skipLine c = false ->
  Block.split " "%char c !! 1%nat = None ->
  Block.loadUVCoordFromText toDouble uv0 t0 (name :: c :: rest) r = None /\
  (forall (name' : string) (t' : BlockType),
      Block.blockTypeMap !! name' = Some t' ->
      Block.loadUVCoordFromText toDouble uv0 t0 (name :: name' :: rest) r
      = None).
Proof.
  intros Hname Hskip Hone.
  assert (Hfail : forall line,
             Block.skipLine line = false ->
             Block.split " "%char line !! 1%nat = None ->
             Block.loadUVCoordFromText toDouble uv0 t0 (name :: line :: rest) r
             = None).
  { intros line Hs Hp. unfold Block.loadUVCoordFromText.
    rewrite (processLines_cons_Some _ _ _ _
               (processLine_name _ _ _ _ _ Hname)).
    cbn. unfold Block.processLine. rewrite Hs. cbn.
    rewrite (parseCoord_one_part line Hp). reflexivity. }
  split.
  - apply Hfail; assumption.
  - intros name' t' Hname'. apply Hfail.
    + eapply blockTypeMap_not_skipped; eauto.
    + eapply blockTypeMap_one_part; eauto.
Qed.

End LoaderProperties.

Lemma loadUVCoordFromText_fails_on_short_line_witness :
  Block.loadUVCoordFromText (fun _ => zero) no_offsets EMPTY
    ["GRASS"; "0 0"; "0.5"; "1 1"]%string (Block.initial ∅) = None /\
  exists (pre : list string) (line : string) (post : list string)
         (st : Block.LoadState),
    ["GRASS"; "0 0"; "0.5"; "1 1"]%string = pre ++ line :: post /\
    Block.processLines (fun _ => zero) pre
      (Block.mkLoadState false 0 no_offsets EMPTY (Block.initial ∅))
    = Some st /\
    Block.readCoord st = true /\ Block.skipLine line = false /\
    Block.split " "%char line !! 1%nat = None.
Proof.
  split; [reflexivity|].
  apply (proj1 (proj1 (loadUVCoordFromText_fails_on_short_line
                         (fun _ => zero) no_offsets EMPTY
                         ["GRASS"; "0 0"; "0.5"; "1 1"]%string
                         (Block.initial ∅)))).
  reflexivity.
Defined.

Lemma loadUVCoordFromText_block_witness :
  Block.loadUVCoordFromText (fun _ => sixteenth) no_offsets EMPTY
    ("ICE" :: ["0 0"; "0 1"; "1 0"; "1 1"; "2 0"; "2 1"] ++ ["# end"])%string
    (Block.initial ∅)
  = Block.loadUVCoordFromText (fun _ => sixteenth) no_offsets EMPTY
      ["# end"]%string
      (Block.insertNewUVCoord ICE
         (Array6 (Vec2 sixteenth sixteenth) (Vec2 sixteenth sixteenth)
            (Vec2 sixteenth sixteenth) (Vec2 sixteenth sixteenth)
            (Vec2 sixteenth sixteenth) (Vec2 sixteenth sixteenth))
         (Block.initial ∅)).
Proof.
  apply (loadUVCoordFromText_block (fun _ => sixteenth) "ICE"%string ICE).
  - reflexivity.
  - unfold array6_to_list. cbn.
    repeat (constructor; [split; reflexivity|]). constructor.
Defined.

Lemma loadUVCoordFromText_inserts_witness :
  exists calls : list (BlockType * array6 vec2),
    Block.insertNewUVCoord ICE no_offsets (Block.initial ∅)
    = insertAll calls (Block.initial ∅) /\
    Forall (fun c => exists line,
                line ∈ ["ICE"; "0 0"; "0 1"; "1 0"; ""; "1 1"; "2 0"; "2 1"]%string /\
                Block.blockTypeMap !! line = Some (fst c)) calls /\
    (7 * length calls
     <= length (filter (fun line => Block.skipLine line = false)
                  ["ICE"; "0 0"; "0 1"; "1 0"; ""; "1 1"; "2 0"; "2 1"]%string))%nat.
Proof.
  apply (loadUVCoordFromText_inserts (fun _ => zero) no_offsets EMPTY).
  reflexivity.
Defined.

Lemma loadUVCoordFromText_frame_witness :
  let r := Block.initial ∅ in
  let r' := Block.insertNewUVCoord ICE no_offsets r in
  Block.transparentBlockTypes r' = Block.transparentBlockTypes r /\
  Block.animatableBlockTypes r' = Block.animatableBlockTypes r /\
  Block.liquidBlockTypes r' = Block.liquidBlockTypes r /\
  (Block.reachable r -> Block.reachable r') /\
  (forall t : BlockType,
      (forall line,
          line ∈ ["ICE"; "0 0"; "0 1"; "1 0"; "1 1"; "2 0"; "2 1"]%string ->
          Block.blockTypeMap !! line <> Some t) ->
      Block.BlockCollection r' !! t = Block.BlockCollection r !! t) /\
  Block.BlockCollection r' !! EMPTY = Block.BlockCollection r !! EMPTY.
Proof.
  cbv zeta.
  apply (loadUVCoordFromText_frame (fun _ => zero) no_offsets EMPTY
           ["ICE"; "0 0"; "0 1"; "1 0"; "1 1"; "2 0"; "2 1"]%string).
  reflexivity.
Defined.

Lemma loadUVCoordFromText_without_names_witness :
  Block.loadUVCoordFromText (fun _ => zero) no_offsets EMPTY
    ["# atlas"; "0.5 0.25"; "EMPTY"; ""; "grass"]%string (Block.initial ∅)
  = Some (Block.initial ∅).
Proof.
  apply loadUVCoordFromText_without_names.
  intros line Hin.
  repeat (apply elem_of_cons in Hin; destruct Hin as [-> | Hin];
          [reflexivity|]).
  apply elem_of_nil in Hin. destruct Hin.
Defined.

Lemma loadUVCoordFromText_unfinished_block_witness :
  Block.loadUVCoordFromText (fun _ => zero) no_offsets EMPTY
    ["LAVA"; "0 0"; "# half way"; "0 1"; "1 0"; "1 1"; "2 0"]%string
    (Block.initial ∅)
  = Some (Block.initial ∅).
Proof.
  apply (loadUVCoordFromText_unfinished_block (fun _ => zero) "LAVA"%string
           LAVA).
  - reflexivity.
  - repeat (apply Forall_cons_2;
            [first [left; reflexivity | right; eexists; reflexivity]|]).
    apply Forall_nil_2.
  - vm_compute. lia.
Defined.

Lemma loadUVCoordFromText_short_line_after_name_witness :
  Block.loadUVCoordFromText (fun _ => zero) no_offsets EMPTY
    ["WOOD"; "0.5"; "0 0"]%string (Block.initial ∅) = None /\
  (forall (name' : string) (t' : BlockType),
      Block.blockTypeMap !! name' = Some t' ->
      Block.loadUVCoordFromText (fun _ => zero) no_offsets EMPTY
        ["WOOD"; name'; "0 0"]%string (Block.initial ∅)
      = None).
Proof.
  apply (loadUVCoordFromText_short_line_after_name (fun _ => zero)
           "WOOD"%string "0.5"%string WOOD); reflexivity.
Defined.

(** ** Sequences of insertions *)

(** X10: after any sequence of calls of [insertNewUVCoord], the registry
    maps a block type to the faces built from the coordinates of the last
    call for that type, and to what it mapped it to before when there was no
    such call. *)
Theorem insertAll_lookup (calls : list (BlockType * array6 vec2))
    (r : Block.Registry) (t : BlockType) :
  Block.BlockCollection (insertAll calls r) !! t
  = match lastCall t calls with
    | Some uv0 => Some (Block.createBlockFaces uv0)
    | None => Block.BlockCollection r !! t
    end.
Proof.
  revert r. induction calls as [|c calls IH]; intros r; [reflexivity|].
  rewrite insertAll_cons, IH. cbn [lastCall].
  destruct (lastCall t calls) as [uv0|]; [reflexivity|].
  cbn. destruct (decide (fst c = t)) as [-> | Hne].
  - apply lookup_insert_eq.
  - apply lookup_insert_ne. exact Hne.
Qed.

(** X11: a second call of [insertNewUVCoord] for the same block type
    replaces the first: only the coordinates of the last call count. *)
Theorem insertNewUVCoord_overwrite (t : BlockType) (uv0 uv1 : array6 vec2)
    (r : Block.Registry) :
  Block.insertNewUVCoord t uv1 (Block.insertNewUVCoord t uv0 r)
  = Block.insertNewUVCoord t uv1 r.
Proof.
  unfold Block.insertNewUVCoord. cbn. f_equal. apply insert_insert_eq.
Qed.

(** X12: calls of [insertNewUVCoord] for different block types can be made
    in either order. *)
Theorem insertNewUVCoord_commute (t t' : BlockType) (uv0 uv1 : array6 vec2)
    (r : Block.Registry) :
  t <> t' ->
  Block.insertNewUVCoord t uv0 (Block.insertNewUVCoord t' uv1 r)
  = Block.insertNewUVCoord t' uv1 (Block.insertNewUVCoord t uv0 r).
Proof.
  intros Hne. unfold Block.insertNewUVCoord. cbn. f_equal.
  apply insert_insert_ne. exact Hne.
Qed.

Lemma insertNewUVCoord_commute_witness :
  Block.insertNewUVCoord SNOW no_offsets
    (Block.insertNewUVCoord WOOD no_offsets (Block.initial ∅))
  = Block.insertNewUVCoord WOOD no_offsets
      (Block.insertNewUVCoord SNOW no_offsets (Block.initial ∅)).
Proof. apply insertNewUVCoord_commute. discriminate. Defined.

(** ** The colours *)

(** X13: every colour that [getColors] returns is opaque, its alpha is the
    float 1, and each of its four components is a number between 0 and 1. *)
Theorem getColors_unit_range (t : BlockType) :
  v4w (Block.getColors t) = F32.of_Z 1 /\
  Forall (fun x => exists q : Q,
              F32.to_Q x = Some q /\ (0 <= q)%Q /\ (q <= 1)%Q)
    [v4x (Block.getColors t); v4y (Block.getColors t);
     v4z (Block.getColors t); v4w (Block.getColors t)].
Proof.
  destruct t; (split; [reflexivity|]);
    repeat (apply Forall_cons_2;
            [eexists; split; [vm_compute; reflexivity|];
             split; vm_compute; discriminate |]);
    apply Forall_nil_2.
Qed.

(** X14: [getColors] tells the five block types of its switch apart, from
    each other and from all the others; the others all get the same colour,
    the debug purple [(1, 0, 1, 1)]. *)
Theorem getColors_eq_iff (t t' : BlockType) :
  (Block.getColors t = Block.getColors t' <->
   t = t' \/ (handled t = false /\ handled t' = false)) /\
  (handled t = false -> Block.getColors t = vec4_of_ints 1 0 1 1).
Proof.
  split.
  - destruct t, t'; split; intros H;
      first [ left; reflexivity
            | right; split; reflexivity
            | reflexivity
            | vm_compute in H; discriminate H
            | destruct H as [H | [H1 H2]]; discriminate ].
  - destruct t; intros H; first [reflexivity | discriminate H].
Qed.

(** ** More on the faces *)

(** X15: for an offset on the grid of the 16 x 16 atlas, column [k] and row
    [l] with both between 0 and 15, the four UV coordinates of the face are
    the four corners of that cell without any rounding:
    [(k/16, l/16)], [((k+1)/16, l/16)], [((k+1)/16, (l+1)/16)] and
    [(k/16, (l+1)/16)]. *)
Theorem createBlockFaces_uv_on_grid (uvOffsets : array6 vec2) (i : nat)
    (k l : Z) (f : BlockFace) :
  0 <= k < 16 -> 0 <= l < 16 ->
  array6_at uvOffsets i = Some (Vec2 (cell k) (cell l)) ->
  array6_at (Block.createBlockFaces uvOffsets) i = Some f ->
  uv (v1 f) = Vec2 (cell k) (cell l) /\
  uv (v2 f) = Vec2 (cell (k + 1)) (cell l) /\
  uv (v3 f) = Vec2 (cell (k + 1)) (cell (l + 1)) /\
  uv (v4 f) = Vec2 (cell k) (cell (l + 1)) /\
  F32.to_Q (cell k) = Some (Qred (k # 16)) /\
  F32.to_Q (cell (k + 1)) = Some (Qred (k + 1 # 16)) /\
  F32.to_Q (cell l) = Some (Qred (l # 16)) /\
  F32.to_Q (cell (l + 1)) = Some (Qred (l + 1 # 16)).
Proof.
  intros Hk Hl Ho Hf.
  destruct (cell_steps k Hk) as (Hk1 & Hk0 & Hkq & Hkq1).
  destruct (cell_steps l Hl) as (Hl1 & Hl0 & Hlq & Hlq1).
  fold sixteenth zero in Hk1, Hk0, Hl1, Hl0.
  assert (Hsteps :
           vec2_add (Vec2 (cell k) (cell l)) (Vec2 sixteenth zero)
           = Vec2 (cell (k + 1)) (cell l) /\
           vec2_add (Vec2 (cell k) (cell l)) (Vec2 sixteenth sixteenth)
           = Vec2 (cell (k + 1)) (cell (l + 1)) /\
           vec2_add (Vec2 (cell k) (cell l)) (Vec2 zero sixteenth)
           = Vec2 (cell k) (cell (l + 1))).
  { unfold vec2_add. cbn [v2x v2y].
    rewrite Hk1, Hk0, Hl1, Hl0. repeat split. }
  destruct Hsteps as (H2 & H3 & H4).
  unfold array6_at, array6_to_list in Ho, Hf.
  do 6 (destruct i as [|i];
        [cbn in Ho, Hf; simplify_eq; cbn;
         rewrite <- ?H2, <- ?H3, <- ?H4;
         destruct uvOffsets; cbn in *; subst; repeat split; assumption |]).
  discriminate Ho.
Qed.

Lemma createBlockFaces_uv_on_grid_witness :
  let f := a3 Block.createBlockFaces_default in
  uv (v1 f) = Vec2 (cell 0) (cell 0) /\
  uv (v2 f) = Vec2 (cell (0 + 1)) (cell 0) /\
  uv (v3 f) = Vec2 (cell (0 + 1)) (cell (0 + 1)) /\
  uv (v4 f) = Vec2 (cell 0) (cell (0 + 1)) /\
  F32.to_Q (cell 0) = Some (Qred (0 # 16)) /\
  F32.to_Q (cell (0 + 1)) = Some (Qred (0 + 1 # 16)) /\
  F32.to_Q (cell 0) = Some (Qred (0 # 16)) /\
  F32.to_Q (cell (0 + 1)) = Some (Qred (0 + 1 # 16)).
Proof.
  cbv zeta.
  apply (createBlockFaces_uv_on_grid no_offsets 3%nat 0 0); try lia;
    reflexivity.
Defined.

(** X16: whatever the UV offsets, the six faces are the closed surface of
    the unit cube: every corner of the cube is a vertex of exactly three
    faces, the four vertices of a face are four different points, and the
    four sides of a face have length 1. *)
Theorem createBlockFaces_closed_cube (uvOffsets : array6 vec2) :
  let faces := array6_to_list (Block.createBlockFaces uvOffsets) in
  Forall (fun p => length (filter (fun f => Some p ∈ face_points f) faces)
                   = 3%nat) cube_corners /\
  Forall (fun f => NoDup (face_points f)) faces /\
  Forall (fun f => dist2 (xyz (pos (v1 f))) (xyz (pos (v2 f))) = Some 1 /\
                   dist2 (xyz (pos (v2 f))) (xyz (pos (v3 f))) = Some 1 /\
                   dist2 (xyz (pos (v3 f))) (xyz (pos (v4 f))) = Some 1 /\
                   dist2 (xyz (pos (v4 f))) (xyz (pos (v1 f))) = Some 1) faces.
Proof.
  cbv zeta. split; [|split].
  - unfold cube_corners.
    repeat (apply Forall_cons_2; [vm_compute; reflexivity|]).
    apply Forall_nil_2.
  - unfold array6_to_list.
    repeat (apply Forall_cons_2;
            [apply (bool_decide_unpack _); vm_compute; exact I|]).
    apply Forall_nil_2.
  - unfold array6_to_list.
    repeat (apply Forall_cons_2; [repeat split|]).
    apply Forall_nil_2.
Qed.

(** X17: on the four side faces the texture stands upright.  For an
    offset on the grid of the atlas, column [k] and row [l] between 0 and
    15, the first two vertices of a side face are at the bottom of the cube
    (y = 0) and carry the row [l/16] of the offset, and the last two are at
    the top (y = 1) and carry the row [(l+1)/16]. *)
Theorem createBlockFaces_sides_upright (uvOffsets : array6 vec2) (i : nat)
    (k l : Z) (f : BlockFace) :
  0 <= k < 16 -> 0 <= l < 16 ->
  array6_at uvOffsets i = Some (Vec2 (cell k) (cell l)) ->
  array6_at (Block.createBlockFaces uvOffsets) i = Some f ->
  is_side (direction f) = true ->
  (F32.to_Z (v4y (pos (v1 f))) = Some 0 /\
   F32.to_Q (v2y (uv (v1 f))) = Some (Qred (l # 16))) /\
  (F32.to_Z (v4y (pos (v2 f))) = Some 0 /\
   F32.to_Q (v2y (uv (v2 f))) = Some (Qred (l # 16))) /\
  (F32.to_Z (v4y (pos (v3 f))) = Some 1 /\
   F32.to_Q (v2y (uv (v3 f))) = Some (Qred (l + 1 # 16))) /\
  (F32.to_Z (v4y (pos (v4 f))) = Some 1 /\
   F32.to_Q (v2y (uv (v4 f))) = Some (Qred (l + 1 # 16))) /\
  (Qred (l # 16) < Qred (l + 1 # 16))%Q.
Proof.
  intros Hk Hl Ho Hf Hside.
  destruct (cell_steps l Hl) as (Hl1 & Hl0 & Hlq & Hlq1).
  fold sixteenth zero in Hl1, Hl0.
  assert (Hrows : (Qred (l # 16) < Qred (l + 1 # 16))%Q).
  { rewrite !Qred_correct. unfold Qlt. cbn. lia. }
  assert (Hgen : forall o : vec2,
             o = Vec2 (cell k) (cell l) ->
             F32.to_Q (v2y o) = Some (Qred (l # 16)) /\
             F32.to_Q (v2y (vec2_add o (Vec2 sixteenth zero)))
             = Some (Qred (l # 16)) /\
             F32.to_Q (v2y (vec2_add o (Vec2 sixteenth sixteenth)))
             = Some (Qred (l + 1 # 16)) /\
             F32.to_Q (v2y (vec2_add o (Vec2 zero sixteenth)))
             = Some (Qred (l + 1 # 16))).
  { intros o ->. unfold vec2_add. cbn [v2x v2y]. rewrite Hl1, Hl0. auto. }
  unfold array6_at, array6_to_list in Ho, Hf.
  do 6 (destruct i as [|i];
        [cbn [lookup list_lookup] in Ho, Hf;
         injection Ho as Ho; injection Hf as <-;
         destruct (Hgen _ Ho) as (G1 & G2 & G3 & G4);
         cbn in Hside;
         first [ discriminate Hside
               | repeat split;
                 first [ reflexivity | exact G1 | exact G2 | exact G3
                       | exact G4 | exact Hrows ] ] |]).
  discriminate Ho.
Qed.

Lemma createBlockFaces_sides_upright_witness :
  let f := a4 (Block.createBlockFaces
                 (Array6 (Vec2 zero zero) (Vec2 zero zero) (Vec2 zero zero)
                    (Vec2 zero zero) (Vec2 (cell 3) (cell 15))
                    (Vec2 zero zero))) in
  (F32.to_Z (v4y (pos (v1 f))) = Some 0 /\
   F32.to_Q (v2y (uv (v1 f))) = Some (Qred (15 # 16))) /\
  (F32.to_Z (v4y (pos (v2 f))) = Some 0 /\
   F32.to_Q (v2y (uv (v2 f))) = Some (Qred (15 # 16))) /\
  (F32.to_Z (v4y (pos (v3 f))) = Some 1 /\
   F32.to_Q (v2y (uv (v3 f))) = Some (Qred (15 + 1 # 16))) /\
  (F32.to_Z (v4y (pos (v4 f))) = Some 1 /\
   F32.to_Q (v2y (uv (v4 f))) = Some (Qred (15 + 1 # 16))) /\
  (Qred (15 # 16) < Qred (15 + 1 # 16))%Q.
Proof.
  cbv zeta.
  apply (createBlockFaces_sides_upright
           (Array6 (Vec2 zero zero) (Vec2 zero zero) (Vec2 zero zero)
              (Vec2 zero zero) (Vec2 (cell 3) (cell 15)) (Vec2 zero zero))
           4%nat 3 15); try lia; reflexivity.
Defined.

(** ** More on the predicates *)

(** X18: the flag of [getAnimatableFlag] tells by its sign whether the block
    type is animatable: both components are above zero exactly when
    [isAnimatable] holds and both are below zero exactly when it does not, in
    every registry. *)
Theorem getAnimatableFlag_sign (r : Block.Registry) (t : BlockType) :
  F32.ltb zero (v2x (Block.getAnimatableFlag r t)) = Block.isAnimatable r t /\
  F32.ltb zero (v2y (Block.getAnimatableFlag r t)) = Block.isAnimatable r t /\
  F32.ltb (v2x (Block.getAnimatableFlag r t)) zero
  = negb (Block.isAnimatable r t) /\
  F32.ltb (v2y (Block.getAnimatableFlag r t)) zero
  = negb (Block.isAnimatable r t).
Proof.
  unfold Block.getAnimatableFlag.
  destruct (Block.isAnimatable r t); repeat split.
Qed.

(** X19: in every registry the program can be in, the empty block type is
    transparent, hence not opaque, and neither liquid nor animatable. *)
Theorem isEmpty_transparent (r : Block.Registry) (t : BlockType) :
  Block.reachable r -> Block.isEmpty t = true ->
  Block.isTransparent r t = true /\ Block.isOpaque r t = false /\
  Block.isLiquid r t = false /\ Block.isAnimatable r t = false.
Proof.
  intros Hr Hempty. destruct (reachable_sets r Hr) as (Ht & Ha & Hl).
  unfold Block.isEmpty in Hempty. apply bool_decide_eq_true in Hempty.
  subst t.
  unfold Block.isTransparent, Block.isOpaque, Block.isLiquid,
    Block.isAnimatable.
  rewrite Ht, Ha, Hl. repeat split.
Qed.

Lemma isEmpty_transparent_witness :
  let r := Block.insertNewUVCoord GRASS no_offsets (Block.initial ∅) in
  Block.isTransparent r EMPTY = true /\ Block.isOpaque r EMPTY = false /\
  Block.isLiquid r EMPTY = false /\ Block.isAnimatable r EMPTY = false.
Proof.
  cbv zeta. apply isEmpty_transparent.
  - apply Block.reachable_insert, Block.reachable_initial.
  - reflexivity.
Defined.
